(** * Position accounting of the portfolio tracker

    A shallow embedding of the two computation routines of the repository,
    [calculateClosedPositions] (src/components/HistoryList.tsx) and the
    per-stock portfolio computation of [PortfolioSummary], followed by the
    properties of the specification that they satisfy or fail.

    Conventions of the embedding.
    - A JavaScript [number] that is read from a record is finite.  Share
      quantities are integers (column [quantity INTEGER]) and are modelled
      by [Z]; prices and amounts are decimals and are modelled by exact
      rationals [Q]; a date is the integer number of milliseconds returned
      by [getTime()].
    - A number that has gone through a division may be [Infinity],
      [-Infinity] or [NaN]; such values have the type [number] below.
      Finite arithmetic is exact: rounding and overflow of binary64 are not
      modelled, and a zero is always the positive zero.
    - The own keys of a JavaScript object used as a dictionary are a [gmap]
      with [string] keys, or an association list where [Object.entries]
      makes their order visible.  The keys that every object inherits from
      [Object.prototype] are apart, in [ObjectKeys]: [HistoryList] and
      [PortfolioSummary] are the code on stock codes that are not such
      keys, and [HistoryListFull] adds what [calculateClosedPositions] does
      on the others.
    - An equation between prices or amounts is written with [=] when its
      two sides are results of the same operations in the same order, and
      with [==] or [number_eq] when they are equal as rationals. *)

From Stdlib Require Import ZArith QArith Lia Lqa List Permutation Sorted.
From stdpp Require Import gmap strings list fin_maps.
Import ListNotations.

Local Open Scope Z_scope.

(** ** JavaScript numbers with the IEEE special values *)

Module JsNumber.

Inductive number : Type :=
| Fin (q : Q)
| PosInf
| NegInf
| NaN.

(** The infinity carrying the sign of a comparison with zero; a zero operand
    ([Eq]) makes the operation invalid. *)
Definition inf_of_sign (c : comparison) : number :=
  match c with
  | Gt => PosInf
  | Lt => NegInf
  | Eq => NaN
  end.

Definition nneg (x : number) : number :=
  match x with
  | Fin a => Fin (- a)%Q
  | PosInf => NegInf
  | NegInf => PosInf
  | NaN => NaN
  end.

Definition nadd (x y : number) : number :=
  match x, y with
  | NaN, _ | _, NaN => NaN
  | Fin a, Fin b => Fin (a + b)%Q
  | PosInf, NegInf | NegInf, PosInf => NaN
  | PosInf, _ | _, PosInf => PosInf
  | NegInf, _ | _, NegInf => NegInf
  end.

Definition nsub (x y : number) : number := nadd x (nneg y).

Definition nmul (x y : number) : number :=
  match x, y with
  | NaN, _ | _, NaN => NaN
  | Fin a, Fin b => Fin (a * b)%Q
  | Fin a, PosInf | PosInf, Fin a => inf_of_sign (a ?= 0)%Q
  | Fin a, NegInf | NegInf, Fin a => inf_of_sign (0 ?= a)%Q
  | PosInf, PosInf | NegInf, NegInf => PosInf
  | PosInf, NegInf | NegInf, PosInf => NegInf
  end.

Definition ndiv (x y : number) : number :=
  match x, y with
  | NaN, _ | _, NaN => NaN
  | Fin a, Fin b =>
      if Qeq_bool b 0 then inf_of_sign (a ?= 0)%Q else Fin (a / b)%Q
  | Fin _, (PosInf | NegInf) => Fin 0
  | PosInf, Fin b => match (b ?= 0)%Q with Lt => NegInf | _ => PosInf end
  | NegInf, Fin b => match (b ?= 0)%Q with Lt => PosInf | _ => NegInf end
  | (PosInf | NegInf), (PosInf | NegInf) => NaN
  end.

(** Numeric equality of results: finite values are compared as rationals. *)
Definition number_eq (x y : number) : Prop :=
  match x, y with
  | Fin a, Fin b => (a == b)%Q
  | PosInf, PosInf | NegInf, NegInf | NaN, NaN => True
  | _, _ => False
  end.

(** [a < b] on finite numbers, as a boolean. *)
Definition Qlt_bool (a b : Q) : bool :=
  match (a ?= b)%Q with
  | Lt => true
  | _ => false
  end.

(** [Math.ceil (x / d)] for an integer [x] and a positive integer [d]. *)
Definition ceil_div (x d : Z) : Z := - ((- x) / d).

End JsNumber.

Import JsNumber.

(** ** Records supplied by the store *)

Inductive transaction_type : Type := buy | sell.

Record Transaction : Type := mkTransaction {
  stock_code : string;
  t_type : transaction_type;
  quantity : Z;
  price_per_share : Q;
  total_value : Q;
  transaction_date : Z
}.

Record Dividend : Type := mkDividend {
  d_stock_code : string;
  amount : Q;
  dividend_date : Z
}.

(** Milliseconds in a day, [1000 * 60 * 60 * 24]. *)
Definition ms_per_day : Z := 1000 * 60 * 60 * 24.

(** ** [Array.prototype.sort] with a comparator

    The sort of the language is stable; with a comparator that is a
    difference of keys it is the stable sort on that key, here by
    insertion: an element goes in front of the first one it does not
    follow. *)

Section Sort.
Context {A : Type} (cmp : A -> A -> Z).

Fixpoint insert_by (x : A) (l : list A) : list A :=
  match l with
  | [] => [x]
  | y :: l' => if cmp x y <=? 0 then x :: y :: l' else y :: insert_by x l'
  end.

Definition js_sort (l : list A) : list A := fold_right insert_by [] l.

(** Ordered for the comparator: no element follows a later one. *)
Definition ordered (l : list A) : Prop :=
  StronglySorted (fun x y => cmp x y <= 0) l.

End Sort.

(** ** HistoryList.tsx: closed positions by FIFO matching *)

Module HistoryList.

(** An element of a queue of [stockQueues]. *)
Record Lot : Type := mkLot {
  lot_quantity : Z;
  lot_price : Q;
  lot_date : Z;
  lot_totalValue : Q
}.

Record ClosedPosition : Type := mkClosedPosition {
  cp_stock_code : string;
  buyDate : Z;
  sellDate : Z;
  cp_quantity : Z;
  buyPrice : Q;
  sellPrice : Q;
  buyValue : Q;
  sellValue : Q;
  dividends : Q;
  days : Z;
  returnReais : Q;
  returnPercent : number;
  monthlyReturn : number
}.

(** [dividends.filter(...)] of the loop body: same stock, date inside the
    closed window from the purchase to the sale. *)
Definition in_window (stock : string) (buyDate sellDate : Z) (d : Dividend) : bool :=
  bool_decide (d_stock_code d = stock)
  && (buyDate <=? dividend_date d) && (dividend_date d <=? sellDate).

(** [.reduce((sum, d) => sum + d.amount, 0)]. *)
Definition sum_amounts (ds : list Dividend) : Q :=
  fold_left (fun sum d => (sum + amount d)%Q) ds 0%Q.

Definition positionDividends (divs : list Dividend) (stock : string)
    (buyDate sellDate : Z) : Q :=
  sum_amounts (List.filter (in_window stock buyDate sellDate) divs).

(** The record pushed by one iteration of the matching loop. *)
Definition make_closed (divs : list Dividend) (stock : string) (sellDate : Z)
    (sellPricePerShare : Q) (oldestBuy : Lot) (matchedQuantity : Z) : ClosedPosition :=
  let buyDate := lot_date oldestBuy in
  let positionDividends := positionDividends divs stock buyDate sellDate in
  let buyValue := (inject_Z matchedQuantity * lot_price oldestBuy)%Q in
  let sellValue := (inject_Z matchedQuantity * sellPricePerShare)%Q in
  let days := ceil_div (sellDate - buyDate) ms_per_day in
  let returnReais := ((sellValue + positionDividends) - buyValue)%Q in
  let returnPercent := nmul (ndiv (Fin returnReais) (Fin buyValue)) (Fin 100) in
  let months := (inject_Z days / 30)%Q in
  let monthlyReturn :=
    if Qlt_bool 0 months then ndiv returnPercent (Fin months) else Fin 0 in
  {| cp_stock_code := stock;
     buyDate := buyDate;
     sellDate := sellDate;
     cp_quantity := matchedQuantity;
     buyPrice := lot_price oldestBuy;
     sellPrice := sellPricePerShare;
     buyValue := buyValue;
     sellValue := sellValue;
     dividends := positionDividends;
     days := days;
     returnReais := returnReais;
     returnPercent := returnPercent;
     monthlyReturn := monthlyReturn |}.

(** State of the [while] loop of a sale: the queue of the stock, what is
    left to sell, and the closed positions pushed so far. *)
Record SellState : Type := mkSellState {
  queue : list Lot;
  remainingSell : Z;
  closedPositions : list ClosedPosition
}.

(** [remainingSell > 0 && stockQueues[stock].length > 0]. *)
Definition sell_cond (st : SellState) : bool :=
  (0 <? remainingSell st) && (0 <? Z.of_nat (length (queue st))).

Section Sale.
Variables (divs : list Dividend) (stock : string) (sellDate : Z)
          (sellPricePerShare : Q).

(** One iteration: match against the head of the queue, push the closed
    position, reduce the head in place and shift it out when it is
    exhausted. *)
Definition sell_body (st : SellState) : SellState :=
  match queue st with
  | [] => st
  | oldestBuy :: rest =>
      let matchedQuantity := Z.min (remainingSell st) (lot_quantity oldestBuy) in
      let cp := make_closed divs stock sellDate sellPricePerShare oldestBuy
                  matchedQuantity in
      let left := lot_quantity oldestBuy - matchedQuantity in
      let oldestBuy' :=
        {| lot_quantity := left;
           lot_price := lot_price oldestBuy;
           lot_date := lot_date oldestBuy;
           lot_totalValue := lot_totalValue oldestBuy |} in
      {| queue := if left =? 0 then rest else oldestBuy' :: rest;
         remainingSell := remainingSell st - matchedQuantity;
         closedPositions := closedPositions st ++ [cp] |}
  end.

(** At most [fuel] iterations of the loop. *)
Fixpoint sell_loop (fuel : nat) (st : SellState) : SellState :=
  match fuel with
  | O => st
  | S fuel' => if sell_cond st then sell_loop fuel' (sell_body st) else st
  end.

(** The whole loop: one iteration per lot of the queue is enough, see
    [sell_loop_exits] and [sell_loop_more_fuel]. *)
Definition sell_all (st : SellState) : SellState :=
  sell_loop (length (queue st)) st.
End Sale.

(** Quantities closed and still open. *)
Definition closed_quantity (cps : list ClosedPosition) : Z :=
  fold_right (fun cp acc => cp_quantity cp + acc) 0 cps.

Definition closed_of (s : string) (cps : list ClosedPosition) : list ClosedPosition :=
  List.filter (fun cp => bool_decide (cp_stock_code cp = s)) cps.

Definition open_quantity (lots : list Lot) : Z :=
  fold_right (fun l acc => lot_quantity l + acc) 0 lots.

(** What the instrument [s] holds during a sale of [stock]: its closed
    quantity so far, plus the quantity of the queue at hand when [s] is the
    stock being sold. *)
Definition sale_quantity (stock s : string) (st : SellState) : Z :=
  closed_quantity (closed_of s (closedPositions st))
  + (if bool_decide (stock = s) then open_quantity (queue st) else 0).

(** State of [calculateClosedPositions] while it walks the transactions. *)
Record Ledger : Type := mkLedger {
  stockQueues : gmap string (list Lot);
  closed : list ClosedPosition
}.

Definition empty_ledger : Ledger := {| stockQueues := ∅; closed := [] |}.

(** The queue of a stock, empty when the stock has none yet. *)
Definition queue_of (s : string) (led : Ledger) : list Lot :=
  default [] (stockQueues led !! s).

(** The lot pushed by a purchase. *)
Definition lot_of (t : Transaction) : Lot :=
  {| lot_quantity := quantity t; lot_price := price_per_share t;
     lot_date := transaction_date t; lot_totalValue := total_value t |}.

(** Body of [sortedTransactions.forEach], for a transaction whose stock code
    is not an inherited key; [HistoryListFull.process] is the body on every
    stock code. *)
Definition process (divs : list Dividend) (led : Ledger) (t : Transaction) : Ledger :=
  let stock := stock_code t in
  let queues :=
    match stockQueues led !! stock with
    | None => <[stock := []]> (stockQueues led)
    | Some _ => stockQueues led
    end in
  let q := default [] (queues !! stock) in
  match t_type t with
  | buy =>
      {| stockQueues := <[stock := q ++ [lot_of t]]> queues; closed := closed led |}
  | sell =>
      let st := sell_all divs stock (transaction_date t) (price_per_share t)
                  {| queue := q; remainingSell := quantity t;
                     closedPositions := closed led |} in
      {| stockQueues := <[stock := queue st]> queues;
         closed := closedPositions st |}
  end.

(** The loop state in which a sale starts, and the one in which it ends. *)
Definition sale_start (led : Ledger) (t : Transaction) : SellState :=
  {| queue := queue_of (stock_code t) led; remainingSell := quantity t;
     closedPositions := closed led |}.

Definition sale_end (divs : list Dividend) (led : Ledger) (t : Transaction) : SellState :=
  sell_all divs (stock_code t) (transaction_date t) (price_per_share t)
    (sale_start led t).

(** [[...transactions].sort((a, b) => a.date - b.date)]. *)
Definition sortedTransactions (transactions : list Transaction) : list Transaction :=
  js_sort (fun a b => transaction_date a - transaction_date b) transactions.

Definition run (divs : list Dividend) (events : list Transaction) : Ledger :=
  fold_left (process divs) events empty_ledger.

(** The ledger when the walk over the sorted transactions is over. *)
Definition final_ledger (transactions : list Transaction) (divs : list Dividend) : Ledger :=
  run divs (sortedTransactions transactions).

Definition calculateClosedPositions (transactions : list Transaction)
    (divs : list Dividend) : list ClosedPosition :=
  js_sort (fun a b => sellDate b - sellDate a)
    (closed (final_ledger transactions divs)).

End HistoryList.

(** ** Keys inherited from [Object.prototype]

    [stockQueues] and [portfolio] are created as [{}]: reading a key that
    they do not own gives the property of that name of [Object.prototype]
    when there is one, and [undefined] otherwise.  [Object.prototype] is
    taken as the language defines it, without properties added by
    programs. *)

Module ObjectKeys.

(** The properties of [Object.prototype], each with the [length] of its
    value: the number of parameters for a function, and none for
    [__proto__], whose value is [Object.prototype] itself. *)
Definition object_prototype : list (string * option Z) :=
  [("constructor", Some 1); ("__defineGetter__", Some 2);
   ("__defineSetter__", Some 2); ("hasOwnProperty", Some 1);
   ("__lookupGetter__", Some 1); ("__lookupSetter__", Some 1);
   ("isPrototypeOf", Some 1); ("propertyIsEnumerable", Some 1);
   ("toString", Some 0); ("valueOf", Some 0); ("__proto__", None);
   ("toLocaleString", Some 0)]%string.

(** [None] for a key that is not inherited, and otherwise the [length] of the
    inherited value. *)
Definition inherited_length (key : string) : option (option Z) :=
  snd <$> List.find (fun e => bool_decide (fst e = key)) object_prototype.

Definition inherited (key : string) : bool :=
  match inherited_length key with
  | Some _ => true
  | None => false
  end.

End ObjectKeys.

(** A transaction whose stock code is not an inherited key. *)
Definition own_code (t : Transaction) : bool :=
  negb (ObjectKeys.inherited (stock_code t)).

(** ** HistoryList.tsx on every stock code

    For a stock code that is an inherited key, [stockQueues[stock]] is the
    inherited value: it is truthy, so no queue is created.  A purchase then
    calls its [push], which is [undefined], and throws.  A sale enters the
    loop when the quantity sold and the [length] of the inherited value are
    both positive, reads [quantity] of its element [0], which is
    [undefined], and throws; otherwise the loop is not entered and nothing
    happens.  An exception leaves [forEach] and [calculateClosedPositions]
    at once. *)

Module HistoryListFull.

Inductive Outcome (A : Type) : Type :=
| Returns (a : A)
| TypeError.

Arguments Returns {A} a.
Arguments TypeError {A}.

(** What is read in a result, when there is one. *)
Definition on_result {A B : Type} (f : A -> B) (o : Outcome A) : Outcome B :=
  match o with
  | Returns a => Returns (f a)
  | TypeError => TypeError
  end.

(** The transactions on which the body of [forEach] throws. *)
Definition throws (t : Transaction) : bool :=
  match ObjectKeys.inherited_length (stock_code t) with
  | None => false
  | Some len =>
      match t_type t with
      | buy => true
      | sell =>
          (0 <? quantity t)
          && match len with
             | Some n => 0 <? n
             | None => false
             end
      end
  end.

(** Body of [sortedTransactions.forEach]. *)
Definition process (divs : list Dividend) (led : HistoryList.Ledger)
    (t : Transaction) : Outcome HistoryList.Ledger :=
  match ObjectKeys.inherited_length (stock_code t) with
  | None => Returns (HistoryList.process divs led t)
  | Some _ => if throws t then TypeError else Returns led
  end.

Definition run (divs : list Dividend) (events : list Transaction)
    : Outcome HistoryList.Ledger :=
  fold_left
    (fun acc t =>
       match acc with
       | Returns led => process divs led t
       | TypeError => TypeError
       end)
    events (Returns HistoryList.empty_ledger).

Definition final_ledger (transactions : list Transaction) (divs : list Dividend)
    : Outcome HistoryList.Ledger :=
  run divs (HistoryList.sortedTransactions transactions).

Definition calculateClosedPositions (transactions : list Transaction)
    (divs : list Dividend) : Outcome (list HistoryList.ClosedPosition) :=
  match final_ledger transactions divs with
  | Returns led =>
      Returns (js_sort (fun a b => HistoryList.sellDate b - HistoryList.sellDate a)
                 (HistoryList.closed led))
  | TypeError => TypeError
  end.

End HistoryListFull.

(** ** PortfolioSummary: open holdings per stock and portfolio totals *)

Module PortfolioSummary.

(** A value of the [portfolio] dictionary. *)
Record Holding : Type := mkHolding {
  h_quantity : Z;
  avgPrice : number;
  totalInvested : Q;
  firstPurchaseDate : option Z;
  totalDividends : Q
}.

(** The entry created for a stock seen for the first time. *)
Definition new_holding : Holding :=
  {| h_quantity := 0; avgPrice := Fin 0; totalInvested := 0;
     firstPurchaseDate := None; totalDividends := 0 |}.

(** The [portfolio] object.  [Object.entries] lists it in the order in which
    the keys were created, so it is kept as an association list with one
    entry per key, new keys at the end. *)
Definition Portfolio : Type := list (string * Holding).

Fixpoint lookup_holding (s : string) (p : Portfolio) : option Holding :=
  match p with
  | [] => None
  | (k, h) :: p' => if bool_decide (k = s) then Some h else lookup_holding s p'
  end.

(** Assignment to fields of [portfolio[s]], the entry being present. *)
Fixpoint alter_holding (f : Holding -> Holding) (s : string) (p : Portfolio) : Portfolio :=
  match p with
  | [] => []
  | (k, h) :: p' =>
      if bool_decide (k = s) then (k, f h) :: p' else (k, h) :: alter_holding f s p'
  end.

(** [if (!portfolio[s]) portfolio[s] = {...}], for a stock code [s] that is
    not an inherited key: the test is then on the own entry. *)
Definition ensure_holding (s : string) (p : Portfolio) : Portfolio :=
  match lookup_holding s p with
  | None => p ++ [(s, new_holding)]
  | Some _ => p
  end.

(** The [buy] branch of [transactions.forEach]. *)
Definition apply_buy (t : Transaction) (h : Holding) : Holding :=
  let currentTotal := nmul (Fin (inject_Z (h_quantity h))) (avgPrice h) in
  let newTotal := nadd currentTotal (Fin (total_value t)) in
  let quantity' := h_quantity h + quantity t in
  let transactionDate := transaction_date t in
  {| h_quantity := quantity';
     avgPrice := ndiv newTotal (Fin (inject_Z quantity'));
     totalInvested := (totalInvested h + total_value t)%Q;
     firstPurchaseDate :=
       match firstPurchaseDate h with
       | None => Some transactionDate
       | Some first =>
           if transactionDate <? first then Some transactionDate else Some first
       end;
     totalDividends := totalDividends h |}.

(** The [sell] branch: only the quantity changes. *)
Definition apply_sell (t : Transaction) (h : Holding) : Holding :=
  {| h_quantity := h_quantity h - quantity t;
     avgPrice := avgPrice h;
     totalInvested := totalInvested h;
     firstPurchaseDate := firstPurchaseDate h;
     totalDividends := totalDividends h |}.

Definition apply_transaction (p : Portfolio) (t : Transaction) : Portfolio :=
  let p' := ensure_holding (stock_code t) p in
  match t_type t with
  | buy => alter_holding (apply_buy t) (stock_code t) p'
  | sell => alter_holding (apply_sell t) (stock_code t) p'
  end.

(** [dividends.forEach]: a dividend of a stock without entry is ignored. *)
Definition add_dividend (p : Portfolio) (d : Dividend) : Portfolio :=
  alter_holding
    (fun h =>
       {| h_quantity := h_quantity h;
          avgPrice := avgPrice h;
          totalInvested := totalInvested h;
          firstPurchaseDate := firstPurchaseDate h;
          totalDividends := (totalDividends h + amount d)%Q |})
    (d_stock_code d) p.

(** The dictionary after both [forEach] loops.  The transactions are walked
    in the order in which they are supplied. *)
Definition portfolio (transactions : list Transaction) (divs : list Dividend) : Portfolio :=
  fold_left add_dividend divs (fold_left apply_transaction transactions []).

Definition activeStocks (p : Portfolio) : Portfolio :=
  List.filter (fun e => 0 <? h_quantity (snd e)) p.

(** A value of the [stockPrices] state. *)
Record StockData : Type := mkStockData {
  currentPrice : Q;
  loading : bool
}.

(** [!stockPrice || stockPrice.loading]: no price for the stock yet. *)
Definition pending (stockPrices : gmap string StockData) (code : string) : bool :=
  match stockPrices !! code with
  | None => true
  | Some sp => loading sp
  end.

Definition calculateReturn (avgPrice : number) (currentPrice dividends : Q)
    (quantity : Z) : number :=
  if Qeq_bool currentPrice 0 then Fin 0
  else
    let totalInvested := nmul avgPrice (Fin (inject_Z quantity)) in
    let currentValue := Fin (currentPrice * inject_Z quantity)%Q in
    nmul (ndiv (nsub (nadd currentValue (Fin dividends)) totalInvested) totalInvested)
         (Fin 100).

Definition calculateCurrentValue (quantity : Z) (currentPrice : Q) : Q :=
  (inject_Z quantity * currentPrice)%Q.

(** [now] is the value of [new Date().getTime()] at the call. *)
Definition calculateMonthlyReturn (now : Z) (firstPurchaseDate : option Z)
    (currentReturn : number) : number :=
  match firstPurchaseDate with
  | None => Fin 0
  | Some first =>
      let diffTime := Z.abs (now - first) in
      let diffDays := ceil_div diffTime ms_per_day in
      let diffMonths := (inject_Z diffDays / 30)%Q in
      if Qeq_bool diffMonths 0 then Fin 0 else ndiv currentReturn (Fin diffMonths)
  end.

Definition totalCurrentValue (stockPrices : gmap string StockData)
    (active : Portfolio) : Q :=
  fold_left
    (fun sum e =>
       let '(code, data) := e in
       match stockPrices !! code with
       | None => sum
       | Some stockPrice =>
           if loading stockPrice then sum
           else (sum + calculateCurrentValue (h_quantity data) (currentPrice stockPrice)
                 + totalDividends data)%Q
       end)
    active 0%Q.

Definition totalPortfolioInvested (active : Portfolio) : Q :=
  fold_left (fun sum e => (sum + totalInvested (snd e))%Q) active 0%Q.

Definition portfolioReturn (totalCurrentValue totalPortfolioInvested : Q) : number :=
  if Qlt_bool 0 totalPortfolioInvested
  then nmul (ndiv (Fin (totalCurrentValue - totalPortfolioInvested))
                  (Fin totalPortfolioInvested)) (Fin 100)
  else Fin 0.

(** [(currentValue + dividends) - totalInvested], the result of a row. *)
Definition calculateResultInReais (quantity : Z) (avgPrice : number)
    (currentPrice dividends : Q) : number :=
  let totalInvested := nmul (Fin (inject_Z quantity)) avgPrice in
  let currentValue := Fin (inject_Z quantity * currentPrice)%Q in
  nsub (nadd currentValue (Fin dividends)) totalInvested.

(** [activeStocks.every(([code]) => price && !price.loading)]. *)
Definition allPricesLoaded (stockPrices : gmap string StockData)
    (active : Portfolio) : bool :=
  forallb
    (fun e =>
       match stockPrices !! fst e with
       | None => false
       | Some price => negb (loading price)
       end)
    active.

(** [stockPrice?.currentPrice || 0], the price used in the row of a stock. *)
Definition rowCurrentPrice (stockPrices : gmap string StockData) (code : string) : Q :=
  match stockPrices !! code with
  | None => 0%Q
  | Some stockPrice => currentPrice stockPrice
  end.

(** [returnPercent] of the row of an active stock. *)
Definition rowReturnPercent (stockPrices : gmap string StockData)
    (e : string * Holding) : number :=
  calculateReturn (avgPrice (snd e)) (rowCurrentPrice stockPrices (fst e))
    (totalDividends (snd e)) (h_quantity (snd e)).

(** *** [fetchPrices]

    The three dictionaries that the effect hands to [setStockPrices], and
    the one that is in place when the effect is over.  The request itself is
    outside: what comes back is either a failure (the request throws, the
    status is not ok, or the body cannot be read), a body without [results],
    or the list of quotes. *)

(** [newPrices]: every active stock marked as loading. *)
Definition newPrices (active : Portfolio) : gmap string StockData :=
  fold_left
    (fun prices e => <[fst e := {| currentPrice := 0; loading := true |}]> prices)
    active ∅.

(** An element of [data.results]; a price that is absent, null, zero or not
    a number is [None]. *)
Record Quote : Type := mkQuote {
  symbol : string;
  regularMarketPrice : option Q
}.

(** [updatedPrices]: one entry per quote, under the symbol of the quote, with
    [stock.regularMarketPrice || 0]. *)
Definition updatedPrices (results : list Quote) : gmap string StockData :=
  fold_left
    (fun prices stock =>
       <[symbol stock := {| currentPrice := default 0%Q (regularMarketPrice stock);
                            loading := false |}]> prices)
    results ∅.

(** [errorPrices]: every active stock at price 0, not loading. *)
Definition errorPrices (active : Portfolio) : gmap string StockData :=
  fold_left
    (fun prices e => <[fst e := {| currentPrice := 0; loading := false |}]> prices)
    active ∅.

Inductive Response : Type :=
| Failed
| NoResults
| Results (results : list Quote).

(** The value of [stockPrices] once [fetchPrices] has returned. *)
Definition fetchPrices (active : Portfolio) (response : Response)
    (stockPrices : gmap string StockData) : gmap string StockData :=
  match active with
  | [] => stockPrices
  | _ =>
      match response with
      | Failed => errorPrices active
      | NoResults => newPrices active
      | Results results => updatedPrices results
      end
  end.

End PortfolioSummary.

(** ** TransactionList: the purchases or the sales *)

Module TransactionList.

Definition same_type (a b : transaction_type) : bool :=
  match a, b with
  | buy, buy | sell, sell => true
  | _, _ => false
  end.

(** [transactions.filter(t => t.transaction_type === type)]. *)
Definition filteredTransactions (transactions : list Transaction)
    (type : transaction_type) : list Transaction :=
  List.filter (fun t => same_type (t_type t) type) transactions.

End TransactionList.

(** ** The recomputation of the specification

    The weighted average cost as the specification words it, over the lots
    that FIFO matching leaves open:
    [Σ(quantity_remaining × unit_cost) / Σ(quantity_remaining)], and [0] when
    nothing is open.  It is compared below with [avgPrice] of the code. *)

Definition open_cost (lots : list HistoryList.Lot) : Q :=
  fold_right
    (fun l acc => (inject_Z (HistoryList.lot_quantity l) * HistoryList.lot_price l + acc)%Q)
    0%Q lots.

Definition spec_weighted_average_cost (lots : list HistoryList.Lot) : Q :=
  if HistoryList.open_quantity lots =? 0 then 0%Q
  else (open_cost lots / inject_Z (HistoryList.open_quantity lots))%Q.

(** The monthly return percent as the specification words it:
    [months = days / 30], and the result is [return_percent / months] when
    [months > 0], else [0].  The elapsed days of an open position are those
    from its first purchase to now, counted as the holding days of a closed
    position are, a day begun being a day. *)
Definition spec_monthly_return_percent (days : Z) (return_percent : number) : number :=
  let months := (inject_Z days / 30)%Q in
  if Qlt_bool 0 months then ndiv return_percent (Fin months) else Fin 0.

Definition spec_elapsed_days (now first : Z) : Z :=
  ceil_div (now - first) ms_per_day.

(** Sums used by the statements. *)

Definition is_buy_of (s : string) (t : Transaction) : bool :=
  bool_decide (stock_code t = s)
  && match t_type t with buy => true | sell => false end.

Definition acquired_quantity (s : string) (events : list Transaction) : Z :=
  fold_right (fun t acc => quantity t + acc) 0 (List.filter (is_buy_of s) events).

Definition is_sell_of (s : string) (t : Transaction) : bool :=
  bool_decide (stock_code t = s)
  && match t_type t with buy => false | sell => true end.

Definition disposed_quantity (s : string) (events : list Transaction) : Z :=
  fold_right (fun t acc => quantity t + acc) 0 (List.filter (is_sell_of s) events).

(** A purchase of [s] in [events] with this date and this price. *)
Definition bought_in (events : list Transaction) (s : string) (d : Z) (p : Q) : Prop :=
  exists b, In b events /\ t_type b = buy /\ stock_code b = s
            /\ transaction_date b = d /\ price_per_share b = p.

(** A closed position that pairs a purchase and a sale of [events]. *)
Definition paired_in (events : list Transaction) (cp : HistoryList.ClosedPosition) : Prop :=
  bought_in events (HistoryList.cp_stock_code cp) (HistoryList.buyDate cp) (HistoryList.buyPrice cp)
  /\ exists sl, In sl events /\ t_type sl = sell
                /\ stock_code sl = HistoryList.cp_stock_code cp
                /\ transaction_date sl = HistoryList.sellDate cp
                /\ price_per_share sl = HistoryList.sellPrice cp.

(** The transactions of the instrument [s]. *)
Definition of_stock (s : string) (t : Transaction) : bool :=
  bool_decide (stock_code t = s).

Definition sum_total_value (l : list Transaction) : Q :=
  fold_right (fun t acc => (total_value t + acc)%Q) 0%Q l.

(** The constraints of the [transactions] table:
    [CHECK (quantity > 0)] and [CHECK (price_per_share > 0)]. *)
Definition valid_record (t : Transaction) : bool :=
  (0 <? quantity t) && Qlt_bool 0 (price_per_share t).

(** An active stock whose price is there and not loading. *)
Definition resolved (stockPrices : gmap string PortfolioSummary.StockData)
    (e : string * PortfolioSummary.Holding) : bool :=
  negb (PortfolioSummary.pending stockPrices (fst e)).

(** ** Worked ledgers *)

Module Examples.

Definition A : string := "A".
Definition B : string := "B".

Definition acquire (s : string) (q : Z) (p : Q) (t : Z) : Transaction :=
  {| stock_code := s; t_type := buy; quantity := q; price_per_share := p;
     total_value := (inject_Z q * p)%Q; transaction_date := t |}.

Definition dispose (s : string) (q : Z) (p : Q) (t : Z) : Transaction :=
  {| stock_code := s; t_type := sell; quantity := q; price_per_share := p;
     total_value := (inject_Z q * p)%Q; transaction_date := t |}.

End Examples.

(** * Properties *)

(** ** The stable sort *)

Lemma Forall_list_filter {A : Type} (P : A -> Prop) (f : A -> bool) (l : list A) :
  Forall P l -> Forall P (List.filter f l).
Proof.
  induction 1 as [|x l Hx _ IH]; simpl; [constructor|].
  destruct (f x); [constructor|]; assumption.
Qed.

Section SortFacts.
Context {A : Type} (cmp : A -> A -> Z).

Lemma insert_by_perm (x : A) (l : list A) :
  Permutation (insert_by cmp x l) (x :: l).
Proof.
  induction l as [|y l IH]; simpl; [reflexivity|].
  destruct (cmp x y <=? 0); [reflexivity|].
  rewrite IH. apply perm_swap.
Qed.

Lemma js_sort_perm (l : list A) : Permutation (js_sort cmp l) l.
Proof.
  induction l as [|x l IH]; simpl; [reflexivity|].
  rewrite insert_by_perm. now apply perm_skip.
Qed.

Lemma js_sort_Forall (P : A -> Prop) (l : list A) :
  Forall P l -> Forall P (js_sort cmp l).
Proof. intros H. now rewrite js_sort_perm. Qed.

(** The comparator orders the elements: it is transitive and total, as a
    difference of keys is. *)
Hypothesis cmp_trans : forall x y z, cmp x y <= 0 -> cmp y z <= 0 -> cmp x z <= 0.
Hypothesis cmp_total : forall x y, 0 < cmp x y -> cmp y x <= 0.

Lemma insert_by_ordered (x : A) (l : list A) :
  ordered cmp l -> ordered cmp (insert_by cmp x l).
Proof.
  induction 1 as [|y l Hl IH Hy]; simpl.
  - repeat constructor.
  - destruct (cmp x y <=? 0) eqn:Hc.
    + apply Z.leb_le in Hc. constructor; [now constructor|].
      constructor; [assumption|].
      eapply List.Forall_impl; [|exact Hy]. intros z Hz. simpl in Hz. eauto.
    + apply Z.leb_gt in Hc. constructor; [assumption|].
      rewrite insert_by_perm. constructor; auto.
Qed.

Lemma js_sort_ordered (l : list A) : ordered cmp (js_sort cmp l).
Proof.
  induction l as [|x l IH]; simpl; [constructor|].
  now apply insert_by_ordered.
Qed.

Lemma insert_by_below (x : A) (l : list A) :
  Forall (fun y => cmp x y <= 0) l -> insert_by cmp x l = x :: l.
Proof.
  destruct 1 as [|y l Hy _]; simpl; [reflexivity|].
  apply Z.leb_le in Hy. now rewrite Hy.
Qed.

Lemma filter_insert_by (p : A -> bool) (x : A) (l : list A) :
  ordered cmp l ->
  List.filter p (insert_by cmp x l) =
  if p x then insert_by cmp x (List.filter p l) else List.filter p l.
Proof.
  induction 1 as [|y l Hl IH Hy]; simpl.
  - now destruct (p x).
  - destruct (cmp x y <=? 0) eqn:Hc; simpl.
    + destruct (p x) eqn:Hx, (p y) eqn:Hpy; simpl; rewrite ?Hc; try reflexivity.
      symmetry. apply insert_by_below.
      apply Z.leb_le in Hc.
      eapply List.Forall_impl; [|apply Forall_list_filter; exact Hy].
      intros z Hz. simpl in Hz. eauto.
    + rewrite IH. destruct (p x), (p y); simpl; rewrite ?Hc; reflexivity.
Qed.

(** Sorting and then selecting is selecting and then sorting. *)
Lemma filter_js_sort (p : A -> bool) (l : list A) :
  List.filter p (js_sort cmp l) = js_sort cmp (List.filter p l).
Proof.
  induction l as [|x l IH]; simpl; [reflexivity|].
  rewrite filter_insert_by by apply js_sort_ordered.
  rewrite IH. now destruct (p x).
Qed.
End SortFacts.

(** ** The matching loop *)

Module HistoryListFacts.
Import HistoryList.

Lemma closed_of_app (s : string) (a b : list ClosedPosition) :
  closed_of s (a ++ b) = closed_of s a ++ closed_of s b.
Proof. apply List.filter_app. Qed.

Lemma closed_quantity_app (a b : list ClosedPosition) :
  closed_quantity (a ++ b) = closed_quantity a + closed_quantity b.
Proof. induction a as [|x a IH]; simpl; [reflexivity|]. rewrite IH. lia. Qed.

Lemma open_quantity_app (a b : list Lot) :
  open_quantity (a ++ b) = open_quantity a + open_quantity b.
Proof. induction a as [|x a IH]; simpl; [reflexivity|]. rewrite IH. lia. Qed.

Lemma closed_quantity_perm (a b : list ClosedPosition) :
  Permutation a b -> closed_quantity a = closed_quantity b.
Proof. induction 1; simpl; lia. Qed.

Section SaleFacts.
Variables (divs : list Dividend) (stock : string) (sellDate : Z)
          (sellPricePerShare : Q).

Abbreviation body := (sell_body divs stock sellDate sellPricePerShare).
Abbreviation loop := (sell_loop divs stock sellDate sellPricePerShare).
Abbreviation all := (sell_all divs stock sellDate sellPricePerShare).
Abbreviation emit := (make_closed divs stock sellDate sellPricePerShare).

Lemma sell_loop_stop (fuel : nat) (st : SellState) :
  sell_cond st = false -> loop fuel st = st.
Proof. intros H. destruct fuel; simpl; [reflexivity|]. now rewrite H. Qed.

(** When an iteration leaves the head of the queue in place, nothing is
    left to sell. *)
Lemma sell_body_partial (lot : Lot) (rest : list Lot) (r : Z)
    (c : list ClosedPosition) :
  lot_quantity lot - Z.min r (lot_quantity lot) <> 0 ->
  sell_cond (body {| queue := lot :: rest; remainingSell := r;
                     closedPositions := c |}) = false.
Proof.
  intros H. unfold sell_cond, sell_body; simpl.
  replace (r - Z.min r (lot_quantity lot)) with 0 by lia. reflexivity.
Qed.

(** The loop has exited when it has run once per lot of the queue. *)
Lemma sell_loop_exits (fuel : nat) (st : SellState) :
  (length (queue st) <= fuel)%nat -> sell_cond (loop fuel st) = false.
Proof.
  revert st. induction fuel as [|fuel IH]; intros [q r c] Hlen; simpl in *.
  - destruct q; simpl in *; [|lia]. unfold sell_cond; simpl.
    now rewrite andb_false_r.
  - destruct (sell_cond {| queue := q; remainingSell := r;
                           closedPositions := c |}) eqn:Hc; [|exact Hc].
    destruct q as [|lot rest]; [unfold sell_cond in Hc; simpl in Hc;
                                 now rewrite andb_false_r in Hc|].
    destruct (Z.eq_dec (lot_quantity lot - Z.min r (lot_quantity lot)) 0) as [E|E].
    + apply IH. unfold sell_body; simpl. apply Z.eqb_eq in E. rewrite E.
      simpl in *. lia.
    + rewrite sell_loop_stop; now apply sell_body_partial.
Qed.

Lemma sell_all_exits (st : SellState) : sell_cond (all st) = false.
Proof. now apply sell_loop_exits. Qed.

(** More iterations than lots change nothing. *)
Lemma sell_loop_more_fuel (fuel : nat) (st : SellState) :
  (length (queue st) <= fuel)%nat -> loop fuel st = all st.
Proof.
  unfold sell_all. revert st.
  induction fuel as [|fuel IH]; intros [q r c] Hlen; simpl in *.
  - destruct q; simpl in *; [reflexivity|lia].
  - destruct q as [|lot rest]; simpl.
    { unfold sell_cond; simpl. now rewrite andb_false_r. }
    destruct (sell_cond {| queue := lot :: rest; remainingSell := r;
                           closedPositions := c |}) eqn:Hc; [|reflexivity].
    destruct (Z.eq_dec (lot_quantity lot - Z.min r (lot_quantity lot)) 0) as [E|E].
    + assert (Hq : queue (body {| queue := lot :: rest; remainingSell := r;
                                  closedPositions := c |}) = rest).
      { unfold sell_body; simpl. apply Z.eqb_eq in E. now rewrite E. }
      rewrite (IH _). 2:{ rewrite Hq. simpl in Hlen. lia. }
      now rewrite Hq.
    + rewrite !sell_loop_stop; auto using sell_body_partial.
Qed.

(** The loop, one lot at a time. *)
Lemma sell_all_nil (r : Z) (c : list ClosedPosition) :
  all {| queue := []; remainingSell := r; closedPositions := c |} =
  {| queue := []; remainingSell := r; closedPositions := c |}.
Proof. reflexivity. Qed.

Lemma sell_all_cons (lot : Lot) (rest : list Lot) (r : Z)
    (c : list ClosedPosition) :
  all {| queue := lot :: rest; remainingSell := r; closedPositions := c |} =
  if 0 <? r then
    let m := Z.min r (lot_quantity lot) in
    if lot_quantity lot - m =? 0 then
      all {| queue := rest; remainingSell := r - m;
             closedPositions := c ++ [emit lot m] |}
    else
      {| queue := {| lot_quantity := lot_quantity lot - m;
                     lot_price := lot_price lot;
                     lot_date := lot_date lot;
                     lot_totalValue := lot_totalValue lot |} :: rest;
         remainingSell := r - m;
         closedPositions := c ++ [emit lot m] |}
  else {| queue := lot :: rest; remainingSell := r; closedPositions := c |}.
Proof.
  unfold sell_all at 1. simpl length. simpl sell_loop.
  unfold sell_cond at 1. simpl.
  destruct (0 <? r) eqn:Hr; simpl; [|reflexivity].
  destruct (lot_quantity lot - Z.min r (lot_quantity lot) =? 0) eqn:E.
  - unfold sell_body at 1; simpl. rewrite E. reflexivity.
  - rewrite sell_loop_stop.
    + unfold sell_body; simpl. now rewrite E.
    + apply sell_body_partial. now apply Z.eqb_neq.
Qed.


(** Every record pushed by the loop is built by [make_closed]. *)
Lemma sell_loop_Forall (P : ClosedPosition -> Prop) (fuel : nat) (st : SellState) :
  (forall lot m, P (emit lot m)) ->
  Forall P (closedPositions st) -> Forall P (closedPositions (loop fuel st)).
Proof.
  intros HP. revert st. induction fuel as [|fuel IH]; intros st Hst; simpl.
  - exact Hst.
  - destruct (sell_cond st); [|exact Hst]. apply IH.
    unfold sell_body. destruct (queue st) as [|lot rest]; [exact Hst|]. simpl.
    apply Forall_app. split; [exact Hst|]. constructor; [apply HP|constructor].
Qed.

Lemma sell_body_conserves (s : string) (st : SellState) :
  sale_quantity stock s (body st) = sale_quantity stock s st.
Proof.
  unfold sale_quantity, sell_body.
  destruct (queue st) as [|lot rest] eqn:Hq; [now rewrite Hq|]. simpl.
  rewrite closed_of_app, closed_quantity_app. simpl.
  destruct (bool_decide (stock = s)); simpl.
  - destruct (_ =? 0) eqn:E; simpl; [apply Z.eqb_eq in E|]; lia.
  - lia.
Qed.

(** The quantity is conserved after any number of iterations. *)
Lemma sell_loop_conserves (s : string) (fuel : nat) (st : SellState) :
  sale_quantity stock s (loop fuel st) = sale_quantity stock s st.
Proof.
  revert st. induction fuel as [|fuel IH]; intros st; simpl; [reflexivity|].
  destruct (sell_cond st); [|reflexivity].
  now rewrite IH, sell_body_conserves.
Qed.
End SaleFacts.

(** *** The walk over the transactions *)

Lemma queue_of_process_other (divs : list Dividend) (led : Ledger)
    (t : Transaction) (s : string) :
  stock_code t <> s -> queue_of s (process divs led t) = queue_of s led.
Proof.
  intros Hs. unfold queue_of, process.
  destruct (stockQueues led !! stock_code t) eqn:Hl, (t_type t); simpl;
    now rewrite ?lookup_insert_ne by assumption.
Qed.

Lemma queue_of_process_buy (divs : list Dividend) (led : Ledger) (t : Transaction) :
  t_type t = buy ->
  queue_of (stock_code t) (process divs led t)
  = queue_of (stock_code t) led ++ [lot_of t].
Proof.
  intros Hb. unfold queue_of, process. rewrite Hb.
  destruct (stockQueues led !! stock_code t) eqn:Hl; simpl;
    rewrite ?lookup_insert_eq, ?Hl; reflexivity.
Qed.

Lemma closed_process_buy (divs : list Dividend) (led : Ledger) (t : Transaction) :
  t_type t = buy -> closed (process divs led t) = closed led.
Proof. intros Hb. unfold process. now rewrite Hb. Qed.

Lemma queue_of_process_sell (divs : list Dividend) (led : Ledger) (t : Transaction) :
  t_type t = sell ->
  queue_of (stock_code t) (process divs led t) = queue (sale_end divs led t).
Proof.
  intros Hb. unfold queue_of, process, sale_end, sale_start, queue_of. rewrite Hb.
  destruct (stockQueues led !! stock_code t) eqn:Hl; simpl;
    rewrite ?lookup_insert_eq, ?Hl; reflexivity.
Qed.

Lemma closed_process_sell (divs : list Dividend) (led : Ledger) (t : Transaction) :
  t_type t = sell ->
  closed (process divs led t) = closedPositions (sale_end divs led t).
Proof.
  intros Hb. unfold process, sale_end, sale_start, queue_of. rewrite Hb.
  destruct (stockQueues led !! stock_code t) eqn:Hl; simpl;
    rewrite ?lookup_insert_eq, ?Hl; reflexivity.
Qed.

End HistoryListFacts.

Module ConservationFacts.
Import HistoryList HistoryListFacts.

(** What a transaction adds to the acquired quantity of [s]. *)
Lemma acquired_quantity_snoc (s : string) (events : list Transaction) (t : Transaction) :
  acquired_quantity s (events ++ [t])
  = acquired_quantity s events + (if is_buy_of s t then quantity t else 0).
Proof.
  unfold acquired_quantity. rewrite List.filter_app. simpl.
  induction (List.filter (is_buy_of s) events) as [|x l IH]; simpl.
  - destruct (is_buy_of s t); simpl; lia.
  - rewrite IH. lia.
Qed.

Lemma acquired_quantity_perm (s : string) (a b : list Transaction) :
  Permutation a b -> acquired_quantity s a = acquired_quantity s b.
Proof.
  unfold acquired_quantity. induction 1; simpl;
    repeat match goal with |- context [is_buy_of s ?x] => destruct (is_buy_of s x) end;
    simpl; lia.
Qed.

Lemma closed_of_perm (s : string) (a b : list ClosedPosition) :
  Permutation a b -> Permutation (closed_of s a) (closed_of s b).
Proof.
  unfold closed_of. induction 1; simpl;
    repeat match goal with |- context [bool_decide ?P] => destruct (bool_decide P) end;
    eauto using Permutation.
Qed.

Lemma run_snoc (divs : list Dividend) (events : list Transaction) (t : Transaction) :
  run divs (events ++ [t]) = process divs (run divs events) t.
Proof. unfold run. now rewrite fold_left_app. Qed.

(** One transaction: the open and closed quantities of [s] grow together by
    what the transaction acquires of [s]. *)
Lemma process_conserves (divs : list Dividend) (led : Ledger) (t : Transaction)
    (s : string) :
  open_quantity (queue_of s (process divs led t))
  + closed_quantity (closed_of s (closed (process divs led t)))
  = open_quantity (queue_of s led) + closed_quantity (closed_of s (closed led))
    + (if is_buy_of s t then quantity t else 0).
Proof.
  unfold is_buy_of. destruct (t_type t) eqn:Ht.
  - rewrite closed_process_buy by assumption.
    destruct (decide (stock_code t = s)) as [<-|Hs].
    + rewrite queue_of_process_buy, open_quantity_app by assumption.
      rewrite bool_decide_eq_true_2 by reflexivity. simpl. lia.
    + rewrite queue_of_process_other by assumption.
      rewrite bool_decide_eq_false_2 by assumption. simpl. lia.
  - rewrite andb_false_r, closed_process_sell by assumption.
    pose proof (sell_loop_conserves divs (stock_code t) (transaction_date t)
                  (price_per_share t) s
                  (length (queue (sale_start led t))) (sale_start led t)) as H.
    fold (sell_all divs (stock_code t) (transaction_date t) (price_per_share t)
            (sale_start led t)) in H.
    fold (sale_end divs led t) in H. unfold sale_quantity in H.
    destruct (decide (stock_code t = s)) as [<-|Hs].
    + rewrite queue_of_process_sell by assumption.
      rewrite bool_decide_eq_true_2 in H by reflexivity. simpl in H. lia.
    + rewrite queue_of_process_other by assumption.
      rewrite bool_decide_eq_false_2 in H by assumption. simpl in H. lia.
Qed.

Lemma run_conserves (divs : list Dividend) (events : list Transaction) (s : string) :
  open_quantity (queue_of s (run divs events))
  + closed_quantity (closed_of s (closed (run divs events)))
  = acquired_quantity s events.
Proof.
  induction events as [|t events IH] using rev_ind.
  - reflexivity.
  - rewrite run_snoc, process_conserves, acquired_quantity_snoc, IH. reflexivity.
Qed.

End ConservationFacts.

(** C4. Quantity conservation, per instrument [s]: the quantity remaining in
    the open lots of [s] plus the quantity of its closed positions equals the
    quantity acquired so far
    - after any number [n] of the sorted transactions has been processed,
    - inside a sale, after any number [k] of iterations of the matching loop
      (the sum does not move while lots are matched),
    - and at the end, for the positions returned and all the transactions
      supplied. *)
Theorem quantity_conservation (transactions : list Transaction)
    (divs : list Dividend) (s : string) :
  (forall n : nat,
     let events := firstn n (HistoryList.sortedTransactions transactions) in
     let led := HistoryList.run divs events in
     HistoryList.open_quantity (HistoryList.queue_of s led)
     + HistoryList.closed_quantity (HistoryList.closed_of s (HistoryList.closed led))
     = acquired_quantity s events)
  /\ (forall (n k : nat) (t : Transaction),
        let events := firstn n (HistoryList.sortedTransactions transactions) in
        let led := HistoryList.run divs events in
        let st := HistoryList.sell_loop divs (stock_code t) (transaction_date t)
                    (price_per_share t) k (HistoryList.sale_start led t) in
        HistoryList.sale_quantity (stock_code t) s st
        + (if bool_decide (stock_code t = s) then 0
           else HistoryList.open_quantity (HistoryList.queue_of s led))
        = acquired_quantity s events)
  /\ HistoryList.open_quantity
       (HistoryList.queue_of s (HistoryList.final_ledger transactions divs))
     + HistoryList.closed_quantity
         (HistoryList.closed_of s (HistoryList.calculateClosedPositions transactions divs))
     = acquired_quantity s transactions.
Proof.
  split; [|split].
  - intros n events led. apply ConservationFacts.run_conserves.
  - intros n k t events led st. unfold st.
    rewrite HistoryListFacts.sell_loop_conserves.
    rewrite <- (ConservationFacts.run_conserves divs events s).
    unfold HistoryList.sale_quantity, HistoryList.sale_start; simpl. fold led.
    destruct (decide (stock_code t = s)) as [<-|Hs].
    + rewrite bool_decide_eq_true_2 by reflexivity. lia.
    + rewrite bool_decide_eq_false_2 by assumption. lia.
  - unfold HistoryList.calculateClosedPositions, HistoryList.final_ledger.
    rewrite (HistoryListFacts.closed_quantity_perm _ _
               (ConservationFacts.closed_of_perm s _ _ (js_sort_perm _ _))).
    rewrite ConservationFacts.run_conserves.
    apply ConservationFacts.acquired_quantity_perm, js_sort_perm.
Qed.

Module EmittedFacts.
Import HistoryList HistoryListFacts.

(** A property of every record built by [make_closed] holds of every closed
    position of the ledger. *)
Lemma run_closed_Forall (P : ClosedPosition -> Prop) (divs : list Dividend)
    (events : list Transaction) :
  (forall stock sellDate price lot m, P (make_closed divs stock sellDate price lot m)) ->
  Forall P (closed (run divs events)).
Proof.
  intros HP. induction events as [|t events IH] using rev_ind; [constructor|].
  rewrite ConservationFacts.run_snoc. destruct (t_type t) eqn:Ht.
  - now rewrite closed_process_buy.
  - rewrite closed_process_sell by assumption.
    apply sell_loop_Forall; [intros; apply HP|exact IH].
Qed.

Lemma calculateClosedPositions_Forall (P : ClosedPosition -> Prop)
    (transactions : list Transaction) (divs : list Dividend) :
  (forall stock sellDate price lot m, P (make_closed divs stock sellDate price lot m)) ->
  Forall P (calculateClosedPositions transactions divs).
Proof. intros HP. apply js_sort_Forall. now apply run_closed_Forall. Qed.

End EmittedFacts.

(** ** Stock codes that are inherited keys *)

Module FullFacts.
Import HistoryList.

Lemma own_code_spec (t : Transaction) :
  own_code t = true <-> ObjectKeys.inherited_length (stock_code t) = None.
Proof.
  unfold own_code, ObjectKeys.inherited.
  destruct (ObjectKeys.inherited_length (stock_code t)); simpl; split;
    congruence.
Qed.

Lemma own_code_not_throws (t : Transaction) :
  own_code t = true -> HistoryListFull.throws t = false.
Proof.
  intros H. apply own_code_spec in H. unfold HistoryListFull.throws. now rewrite H.
Qed.

Lemma existsb_perm {A : Type} (f : A -> bool) (a b : list A) :
  Permutation a b -> existsb f a = existsb f b.
Proof.
  induction 1 as [|x a b _ IH|x y a|a b c _ IH1 _ IH2]; simpl.
  - reflexivity.
  - now rewrite IH.
  - destruct (f x), (f y); reflexivity.
  - congruence.
Qed.

Lemma full_run_snoc (divs : list Dividend) (events : list Transaction) (t : Transaction) :
  HistoryListFull.run divs (events ++ [t])
  = match HistoryListFull.run divs events with
    | HistoryListFull.Returns led => HistoryListFull.process divs led t
    | HistoryListFull.TypeError => HistoryListFull.TypeError
    end.
Proof. unfold HistoryListFull.run. now rewrite fold_left_app. Qed.

(** The walk throws when one of the transactions does; otherwise the
    transactions on inherited keys do nothing, and the ledger is the one of
    the transactions on own keys. *)
Lemma run_spec (divs : list Dividend) (events : list Transaction) :
  HistoryListFull.run divs events
  = if existsb HistoryListFull.throws events then HistoryListFull.TypeError
    else HistoryListFull.Returns (run divs (List.filter own_code events)).
Proof.
  induction events as [|t events IH] using rev_ind; [reflexivity|].
  rewrite full_run_snoc, IH, existsb_app, List.filter_app. simpl.
  destruct (existsb HistoryListFull.throws events); [reflexivity|]. simpl.
  rewrite orb_false_r. unfold HistoryListFull.process.
  destruct (ObjectKeys.inherited_length (stock_code t)) as [len|] eqn:Hlen.
  - assert (Hown : own_code t = false).
    { destruct (own_code t) eqn:E; [|reflexivity].
      apply own_code_spec in E. congruence. }
    rewrite Hown, app_nil_r. reflexivity.
  - assert (Hown : own_code t = true) by now apply own_code_spec.
    rewrite Hown, (own_code_not_throws t Hown), ConservationFacts.run_snoc.
    reflexivity.
Qed.

Lemma calculateClosedPositions_spec (transactions : list Transaction)
    (divs : list Dividend) :
  HistoryListFull.calculateClosedPositions transactions divs
  = if existsb HistoryListFull.throws transactions then HistoryListFull.TypeError
    else HistoryListFull.Returns
           (calculateClosedPositions (List.filter own_code transactions) divs).
Proof.
  unfold HistoryListFull.calculateClosedPositions, HistoryListFull.final_ledger.
  rewrite run_spec.
  rewrite (existsb_perm _ _ transactions) by apply js_sort_perm.
  destruct (existsb HistoryListFull.throws transactions); [reflexivity|].
  unfold calculateClosedPositions, final_ledger, sortedTransactions.
  now rewrite filter_js_sort by (intros; lia).
Qed.


(** A property of every record built by [make_closed] holds of every closed
    position returned. *)
Lemma returned_Forall (P : ClosedPosition -> Prop) (transactions : list Transaction)
    (divs : list Dividend) (l : list ClosedPosition) :
  (forall stock sellDate price lot m, P (make_closed divs stock sellDate price lot m)) ->
  HistoryListFull.calculateClosedPositions transactions divs
  = HistoryListFull.Returns l ->
  Forall P l.
Proof.
  intros HP. rewrite calculateClosedPositions_spec.
  destruct (existsb HistoryListFull.throws transactions); [discriminate|].
  intros [= <-]. now apply EmittedFacts.calculateClosedPositions_Forall.
Qed.

End FullFacts.


(** C10. One distribution counted twice: two lots held together, one
    distribution dated after the later purchase and before the sale, one
    sale draining both lots.  Each of the two closed positions counts the
    whole distribution, so the distributions attributed to the closed
    positions add up to more than what was distributed. *)
Theorem distribution_counted_twice :
  exists (transactions : list Transaction) (d : Dividend),
    transactions
    = [Examples.acquire Examples.A 10 1 1; Examples.acquire Examples.A 10 1 2;
       Examples.dispose Examples.A 20 1 4]
    /\ d = {| d_stock_code := Examples.A; amount := 100; dividend_date := 3 |}
    /\ map (fun cp => (HistoryList.buyDate cp, HistoryList.sellDate cp,
                       HistoryList.dividends cp))
           (HistoryList.calculateClosedPositions transactions [d])
       = [(1, 4, 100%Q); (2, 4, 100%Q)]
    /\ (HistoryList.sum_amounts [d]
        < fold_right (fun cp acc => HistoryList.dividends cp + acc) 0
            (HistoryList.calculateClosedPositions transactions [d]))%Q.
Proof.
  eexists _, _. split; [reflexivity|]. split; [reflexivity|].
  split; reflexivity.
Qed.

(** ** Months *)

Module MonthFacts.

Lemma ceil_div_abs_nonneg (x : Z) : 0 <= ceil_div (Z.abs x) ms_per_day.
Proof.
  unfold ceil_div.
  assert (- Z.abs x / ms_per_day <= 0); [|lia].
  apply Z.div_le_upper_bound; [reflexivity|lia].
Qed.

(** For a day count that is not negative, testing the months against zero
    and testing that they are positive agree. *)
Lemma months_zero_or_positive (d : Z) :
  0 <= d -> Qeq_bool (inject_Z d / 30) 0 = negb (Qlt_bool 0 (inject_Z d / 30)).
Proof.
  intros Hd. unfold Qeq_bool, Qlt_bool, Qcompare, Qdiv, Qmult, Qinv, inject_Z; simpl.
  replace (d * 1 * 1) with d by lia.
  destruct d; simpl; try reflexivity; lia.
Qed.

End MonthFacts.

(** C6, as the code has it.  For every closed position returned the monthly
    return is the one of the specification over its holding days,
    [ceil ((sellDate - buyDate) / one day)]: the return percent divided by
    the months, a month being thirty days, when the months are positive, and
    0 otherwise.  For an open position it is the one of the specification
    over the days that separate now and the first purchase, whichever comes
    first, [ceil (|now - first| / one day)], and 0 without a first purchase;
    these are the elapsed days when the first purchase is not after now.  A
    return of 30% over 60 days gives 15% per month, closed or open. *)
Theorem monthly_return (transactions : list Transaction) (divs : list Dividend)
    (now first : Z) (currentReturn : number) :
  (forall cps : list HistoryList.ClosedPosition,
     HistoryListFull.calculateClosedPositions transactions divs
     = HistoryListFull.Returns cps ->
     Forall
       (fun cp =>
          HistoryList.days cp
          = ceil_div (HistoryList.sellDate cp - HistoryList.buyDate cp) ms_per_day
          /\ HistoryList.monthlyReturn cp
             = spec_monthly_return_percent (HistoryList.days cp)
                 (HistoryList.returnPercent cp))
       cps)
  /\ PortfolioSummary.calculateMonthlyReturn now (Some first) currentReturn
     = spec_monthly_return_percent (ceil_div (Z.abs (now - first)) ms_per_day)
         currentReturn
  /\ (first <= now ->
      PortfolioSummary.calculateMonthlyReturn now (Some first) currentReturn
      = spec_monthly_return_percent (spec_elapsed_days now first) currentReturn)
  /\ PortfolioSummary.calculateMonthlyReturn now None currentReturn = Fin 0
  /\ (exists cp : HistoryList.ClosedPosition,
        HistoryListFull.calculateClosedPositions
          [Examples.acquire Examples.A 10 10 0;
           Examples.dispose Examples.A 10 13 (60 * ms_per_day)] []
        = HistoryListFull.Returns [cp]
        /\ HistoryList.days cp = 60
        /\ number_eq (HistoryList.returnPercent cp) (Fin 30)
        /\ number_eq (HistoryList.monthlyReturn cp) (Fin 15))
  /\ number_eq
       (PortfolioSummary.calculateMonthlyReturn (first + 60 * ms_per_day)
          (Some first) (Fin 30))
       (Fin 15).
Proof.
  assert (Hopen : forall n f : Z,
             PortfolioSummary.calculateMonthlyReturn n (Some f) currentReturn
             = spec_monthly_return_percent (ceil_div (Z.abs (n - f)) ms_per_day)
                 currentReturn).
  { intros n f.
    unfold PortfolioSummary.calculateMonthlyReturn, spec_monthly_return_percent.
    rewrite MonthFacts.months_zero_or_positive by apply MonthFacts.ceil_div_abs_nonneg.
    cbv zeta. now destruct (Qlt_bool _ _). }
  split; [|split; [|split; [|split; [|split]]]].
  - intros cps Hcps.
    apply (FullFacts.returned_Forall _ transactions divs); [|exact Hcps].
    intros. split; reflexivity.
  - apply Hopen.
  - intros Hle. rewrite Hopen. unfold spec_elapsed_days.
    now rewrite Z.abs_eq by lia.
  - reflexivity.
  - eexists. split; [reflexivity|]. repeat split.
  - unfold PortfolioSummary.calculateMonthlyReturn.
    replace (first + 60 * ms_per_day - first) with (60 * ms_per_day) by lia.
    reflexivity.
Qed.

(** A return of 9% on a position bought three days ago. *)
Lemma monthly_return_witness :
  0 <= 3 * ms_per_day
  /\ PortfolioSummary.calculateMonthlyReturn (3 * ms_per_day) (Some 0) (Fin 9)
     = spec_monthly_return_percent 3 (Fin 9)
  /\ number_eq (spec_monthly_return_percent 3 (Fin 9)) (Fin 90).
Proof.
  assert (Hle : 0 <= 3 * ms_per_day) by discriminate.
  split; [exact Hle|]. split; [|reflexivity].
  exact (proj1 (proj2 (proj2 (monthly_return [] [] (3 * ms_per_day) 0 (Fin 9)))) Hle).
Defined.

(** C6, as stated, fails.  For a first purchase dated thirty days after
    now, the elapsed days are -30 and the months are not positive, so that
    the monthly return of the specification is 0; the code takes the absolute
    value of the span, counts one month, and gives the return itself. *)
Lemma monthly_return_future_purchase :
  let now := 0 in
  let first := 30 * ms_per_day in
  spec_elapsed_days now first = -30
  /\ spec_monthly_return_percent (spec_elapsed_days now first) (Fin 2) = Fin 0
  /\ number_eq (PortfolioSummary.calculateMonthlyReturn now (Some first) (Fin 2)) (Fin 2)
  /\ ~ number_eq (PortfolioSummary.calculateMonthlyReturn now (Some first) (Fin 2))
         (Fin 0).
Proof. repeat split. vm_compute. discriminate. Qed.

(** ** Disposals that exhaust the queue *)

Module DrainFacts.
Import HistoryList HistoryListFacts.

Section Drain.
Variables (divs : list Dividend) (stock : string) (sellDate : Z)
          (sellPricePerShare : Q).

Abbreviation all := (sell_all divs stock sellDate sellPricePerShare).
Abbreviation emit := (make_closed divs stock sellDate sellPricePerShare).

Lemma open_quantity_nonneg (q : list Lot) :
  Forall (fun l => 0 < lot_quantity l) q -> 0 <= open_quantity q.
Proof. induction 1; simpl; lia. Qed.

(** The lots stay positive through a sale. *)
Lemma sell_all_positive (q : list Lot) (r : Z) (c : list ClosedPosition) :
  Forall (fun l => 0 < lot_quantity l) q ->
  Forall (fun l => 0 < lot_quantity l)
    (queue (all {| queue := q; remainingSell := r; closedPositions := c |})).
Proof.
  intros Hq. revert r c. induction Hq as [|lot rest Hlot Hrest IH]; intros r c.
  - constructor.
  - rewrite sell_all_cons. destruct (0 <? r); [|now constructor]. cbv zeta.
    destruct (_ =? 0) eqn:E; [apply IH|].
    apply Z.eqb_neq in E. constructor; [simpl; lia|assumption].
Qed.


(** A sale also stops when nothing is left to sell. *)
Lemma sell_all_zero (q : list Lot) (c : list ClosedPosition) :
  all {| queue := q; remainingSell := 0; closedPositions := c |}
  = {| queue := q; remainingSell := 0; closedPositions := c |}.
Proof. unfold sell_all. now apply sell_loop_stop. Qed.

(** Oldest first, with a partial drain of the last lot touched: a sale that
    needs more than the lots [whole] and no more than [whole] and [last]
    together closes each lot of [whole] entirely, then closes what is still
    asked from [last], which stays at the head of the queue with the rest of
    its quantity unless it is exhausted too. *)
Lemma sell_all_fifo (whole : list Lot) (last : Lot) (rest : list Lot) (r : Z)
    (c : list ClosedPosition) :
  Forall (fun l => 0 < lot_quantity l) whole ->
  open_quantity whole < r <= open_quantity whole + lot_quantity last ->
  let taken := r - open_quantity whole in
  all {| queue := whole ++ last :: rest; remainingSell := r; closedPositions := c |}
  = {| queue :=
         if lot_quantity last - taken =? 0 then rest
         else {| lot_quantity := lot_quantity last - taken;
                 lot_price := lot_price last;
                 lot_date := lot_date last;
                 lot_totalValue := lot_totalValue last |} :: rest;
       remainingSell := 0;
       closedPositions :=
         c ++ map (fun lot => emit lot (lot_quantity lot)) whole
           ++ [emit last taken] |}.
Proof.
  intros Hw. revert r c.
  induction Hw as [|lot whole Hlot Hwhole IH]; intros r c Hr taken; simpl in *.
  - unfold taken. rewrite Z.sub_0_r. rewrite sell_all_cons.
    replace (0 <? r) with true by (symmetry; apply Z.ltb_lt; lia). cbv zeta.
    replace (Z.min r (lot_quantity last)) with r by lia.
    rewrite Z.sub_diag. destruct (_ =? 0); [apply sell_all_zero|reflexivity].
  - pose proof (open_quantity_nonneg whole Hwhole).
    rewrite sell_all_cons.
    replace (0 <? r) with true by (symmetry; apply Z.ltb_lt; lia). cbv zeta.
    replace (Z.min r (lot_quantity lot)) with (lot_quantity lot) by lia.
    rewrite Z.sub_diag. simpl (0 =? 0). cbv iota.
    rewrite IH by lia. cbv zeta.
    replace (r - lot_quantity lot - open_quantity whole) with taken
      by (unfold taken; lia).
    now rewrite <- app_assoc.
Qed.
End Drain.

(** Purchases of positive quantities only put positive lots in the queues. *)
Lemma run_positive (divs : list Dividend) (events : list Transaction) (s : string) :
  Forall (fun t => 0 < quantity t) events ->
  Forall (fun l => 0 < lot_quantity l) (queue_of s (run divs events)).
Proof.
  induction events as [|t events IH] using rev_ind; intros Hev.
  - constructor.
  - apply Forall_app in Hev as [Hev Ht]. specialize (IH Hev).
    rewrite ConservationFacts.run_snoc.
    destruct (decide (stock_code t = s)) as [<-|Hs].
    2:{ now rewrite queue_of_process_other. }
    destruct (t_type t) eqn:Hty.
    + rewrite queue_of_process_buy by assumption.
      apply Forall_app. split; [assumption|]. inversion Ht; subst.
      repeat constructor. assumption.
    + rewrite queue_of_process_sell by assumption.
      now apply sell_all_positive.
Qed.

End DrainFacts.




(** ** One instrument at a time *)

Module IndependenceFacts.
Import HistoryList HistoryListFacts.












End IndependenceFacts.




(** ** Records that the store accepts *)

Module ValidFacts.
Import HistoryList HistoryListFacts.

Lemma Qlt_bool_iff (a b : Q) : Qlt_bool a b = true <-> (a < b)%Q.
Proof.
  unfold Qlt_bool. destruct (Qcompare_spec a b) as [E|L|G]; split;
    intros H; try discriminate; try reflexivity; try assumption.
  - rewrite E in H. now apply Qlt_irrefl in H.
  - exfalso. apply (Qlt_irrefl a). now apply Qlt_trans with b.
Qed.

Lemma valid_record_iff (t : Transaction) :
  valid_record t = true <-> 0 < quantity t /\ (0 < price_per_share t)%Q.
Proof. unfold valid_record. now rewrite andb_true_iff, Z.ltb_lt, Qlt_bool_iff. Qed.

Section ValidSale.
Variables (divs : list Dividend) (stock : string) (sellDate : Z)
          (sellPricePerShare : Q).

Abbreviation all := (sell_all divs stock sellDate sellPricePerShare).

(** A sale changes no price. *)
Lemma sell_all_priced (q : list Lot) (r : Z) (c : list ClosedPosition) :
  Forall (fun l => (0 < lot_price l)%Q) q ->
  Forall (fun l => (0 < lot_price l)%Q)
    (queue (all {| queue := q; remainingSell := r; closedPositions := c |})).
Proof.
  intros Hq. revert r c. induction Hq as [|lot rest Hlot Hrest IH]; intros r c.
  - constructor.
  - rewrite sell_all_cons. destruct (0 <? r); [|now constructor]. cbv zeta.
    destruct (_ =? 0); [apply IH|]. now constructor.
Qed.

(** Matched against positive lots of positive price, a sale only closes
    positions of positive quantity and positive acquisition value. *)
Lemma sell_all_acquired (q : list Lot) (r : Z) (c : list ClosedPosition) :
  Forall (fun l => 0 < lot_quantity l) q ->
  Forall (fun l => (0 < lot_price l)%Q) q ->
  Forall (fun cp => 0 < cp_quantity cp /\ (0 < buyValue cp)%Q) c ->
  Forall (fun cp => 0 < cp_quantity cp /\ (0 < buyValue cp)%Q)
    (closedPositions (all {| queue := q; remainingSell := r; closedPositions := c |})).
Proof.
  intros Hq. revert r c.
  induction Hq as [|lot rest Hlot Hrest IH]; intros r c Hp Hc; [exact Hc|].
  inversion Hp as [|? ? Hprice Hprices]; subst.
  rewrite sell_all_cons. destruct (Z.ltb_spec 0 r) as [Hr|Hr]; [|exact Hc].
  cbv zeta.
  assert (Hnew : Forall (fun cp => 0 < cp_quantity cp /\ (0 < buyValue cp)%Q)
                   (c ++ [make_closed divs stock sellDate sellPricePerShare lot
                            (Z.min r (lot_quantity lot))])).
  { apply Forall_app. split; [exact Hc|]. constructor; [|constructor].
    simpl. split; [lia|]. apply Qmult_lt_0_compat; [|exact Hprice].
    change 0%Q with (inject_Z 0). rewrite <- Zlt_Qlt. lia. }
  destruct (_ =? 0); [now apply IH|exact Hnew].
Qed.
End ValidSale.

Lemma run_priced (divs : list Dividend) (events : list Transaction) (s : string) :
  Forall (fun t => valid_record t = true) events ->
  Forall (fun l => (0 < lot_price l)%Q) (queue_of s (run divs events)).
Proof.
  induction events as [|t events IH] using rev_ind; intros Hev.
  - constructor.
  - apply Forall_app in Hev as [Hev Ht]. specialize (IH Hev).
    inversion Ht as [|? ? Hvalid _]; subst. apply valid_record_iff in Hvalid.
    rewrite ConservationFacts.run_snoc.
    destruct (decide (stock_code t = s)) as [<-|Hs].
    2:{ now rewrite queue_of_process_other. }
    destruct (t_type t) eqn:Hty.
    + rewrite queue_of_process_buy by assumption.
      apply Forall_app. split; [assumption|]. repeat constructor. apply Hvalid.
    + rewrite queue_of_process_sell by assumption. now apply sell_all_priced.
Qed.

Lemma valid_quantities (events : list Transaction) :
  Forall (fun t => valid_record t = true) events ->
  Forall (fun t => 0 < quantity t) events.
Proof.
  intros H. eapply List.Forall_impl; [|exact H].
  intros t Ht. now apply valid_record_iff in Ht.
Qed.

(** On records that satisfy the constraints of the store, every closed
    position has a positive quantity and a positive acquisition value. *)
Lemma run_acquired (divs : list Dividend) (events : list Transaction) :
  Forall (fun t => valid_record t = true) events ->
  Forall (fun cp => 0 < cp_quantity cp /\ (0 < buyValue cp)%Q)
    (closed (run divs events)).
Proof.
  induction events as [|t events IH] using rev_ind; intros Hev; [constructor|].
  apply Forall_app in Hev as [Hev Ht]. specialize (IH Hev).
  rewrite ConservationFacts.run_snoc. destruct (t_type t) eqn:Hty.
  - now rewrite closed_process_buy.
  - rewrite closed_process_sell by assumption.
    apply sell_all_acquired; [|now apply run_priced|exact IH].
    now apply DrainFacts.run_positive, valid_quantities.
Qed.

End ValidFacts.

(** ** Returns *)

(** C5, as the code has it.  The return percent is computed without a guard
    on the acquisition value.  Whatever the average price of the holding is
    (it may be infinite or not a number), [calculateReturn] gives 0 when the
    current price is 0, and otherwise
    [(current value + dividends − acquisition value) / acquisition value × 100]
    with the acquisition value [avgPrice × quantity], zero or not.  For every
    closed position returned, the return value is
    [(sellValue + dividends) − buyValue] and the return percent is
    [returnReais / buyValue × 100], [buyValue] zero or not: ten shares bought
    at 10 and sold at 13 give a return value of 30 and a return percent of
    30.  Only the portfolio return is guarded on its denominator: it is
    [(current value − invested) / invested × 100] when the total invested is
    positive, and 0 otherwise. *)
Theorem return_percent_guard (avgPrice : number) (currentPrice dividends : Q)
    (quantity : Z) (transactions : list Transaction) (divs : list Dividend)
    (totalCurrentValue totalPortfolioInvested : Q) :
  ((currentPrice == 0)%Q ->
   PortfolioSummary.calculateReturn avgPrice currentPrice dividends quantity = Fin 0)
  /\ (~ (currentPrice == 0)%Q ->
      let totalInvested := nmul avgPrice (Fin (inject_Z quantity)) in
      let currentValue := Fin (currentPrice * inject_Z quantity)%Q in
      PortfolioSummary.calculateReturn avgPrice currentPrice dividends quantity
      = nmul (ndiv (nsub (nadd currentValue (Fin dividends)) totalInvested)
                   totalInvested)
             (Fin 100))
  /\ (forall cps : list HistoryList.ClosedPosition,
        HistoryListFull.calculateClosedPositions transactions divs
        = HistoryListFull.Returns cps ->
        Forall
          (fun cp =>
             HistoryList.returnReais cp
             = (HistoryList.sellValue cp + HistoryList.dividends cp
                - HistoryList.buyValue cp)%Q
             /\ HistoryList.returnPercent cp
                = nmul (ndiv (Fin (HistoryList.returnReais cp))
                             (Fin (HistoryList.buyValue cp)))
                       (Fin 100))
          cps)
  /\ (exists cp : HistoryList.ClosedPosition,
        HistoryListFull.calculateClosedPositions
          [Examples.acquire Examples.A 10 10 1; Examples.dispose Examples.A 10 13 2] []
        = HistoryListFull.Returns [cp]
        /\ (HistoryList.buyValue cp == 100)%Q
        /\ (HistoryList.returnReais cp == 30)%Q
        /\ number_eq (HistoryList.returnPercent cp) (Fin 30))
  /\ ((0 < totalPortfolioInvested)%Q ->
      PortfolioSummary.portfolioReturn totalCurrentValue totalPortfolioInvested
      = nmul (ndiv (Fin (totalCurrentValue - totalPortfolioInvested))
                   (Fin totalPortfolioInvested))
             (Fin 100))
  /\ (~ (0 < totalPortfolioInvested)%Q ->
      PortfolioSummary.portfolioReturn totalCurrentValue totalPortfolioInvested
      = Fin 0).
Proof.
  split; [|split; [|split; [|split; [|split]]]].
  - intros Hp. unfold PortfolioSummary.calculateReturn.
    apply Qeq_bool_iff in Hp. now rewrite Hp.
  - intros Hp totalInvested currentValue. unfold PortfolioSummary.calculateReturn.
    destruct (Qeq_bool currentPrice 0) eqn:E; [|reflexivity].
    apply Qeq_bool_iff in E. contradiction.
  - intros cps Hcps. apply (FullFacts.returned_Forall _ transactions divs); [|exact Hcps].
    intros stock sellDate price lot m. split; reflexivity.
  - eexists. split; [reflexivity|]. repeat split.
  - intros Hpos. unfold PortfolioSummary.portfolioReturn.
    now rewrite (proj2 (ValidFacts.Qlt_bool_iff _ _) Hpos).
  - intros Hneg. unfold PortfolioSummary.portfolioReturn, Qlt_bool.
    destruct (Qcompare_spec 0 totalPortfolioInvested); try reflexivity.
    contradiction.
Qed.

(** Ten shares at an average price of 10, quoted 13, with 5 of dividends;
    the same row with an average price that is not a number; and a portfolio
    worth 135 for 100 invested. *)
Lemma return_percent_guard_witness :
  ~ (13 == 0)%Q
  /\ (0 < 100)%Q
  /\ number_eq (PortfolioSummary.calculateReturn (Fin 10) 13 5 10) (Fin 35)
  /\ PortfolioSummary.calculateReturn NaN 13 5 10 = NaN
  /\ number_eq (PortfolioSummary.portfolioReturn 135 100) (Fin 35).
Proof.
  assert (Hp : ~ (13 == 0)%Q) by discriminate.
  assert (Hi : (0 < 100)%Q) by reflexivity.
  split; [exact Hp|]. split; [exact Hi|]. split; [|split].
  - rewrite (proj1 (proj2 (return_percent_guard (Fin 10) 13 5 10 [] [] 0 0)) Hp).
    reflexivity.
  - rewrite (proj1 (proj2 (return_percent_guard NaN 13 5 10 [] [] 0 0)) Hp).
    reflexivity.
  - rewrite (proj1 (proj2 (proj2 (proj2 (proj2
               (return_percent_guard (Fin 0) 0 0 0 [] [] 135 100))))) Hi).
    reflexivity.
Defined.

(** C5, as stated, fails.  With nothing open ([quantity = 0]) and a quoted
    price, the acquisition value is 0 and [calculateReturn] gives [NaN], not
    0.  On records that the store accepts (5 bought at 2, 10 sold, 10 bought
    at 1, walked in this order) the holding ends with 5 shares at an average
    price of 0: its acquisition value is 0 and its return percent at a price
    of 3 is [Infinity].  And the guard that exists is on the price: ten
    shares at 10 with 5 of dividends and a current price of 0 have a return
    value of -95 for an acquisition value of 100, and a return percent of 0
    instead of -95. *)
Lemma return_percent_unguarded :
  PortfolioSummary.calculateReturn (Fin 1) 5 0 0 = NaN
  /\ (exists h,
       PortfolioSummary.activeStocks
         (PortfolioSummary.portfolio
            [Examples.acquire Examples.A 5 2 1; Examples.dispose Examples.A 10 2 2;
             Examples.acquire Examples.A 10 1 3] [])
       = [(Examples.A, h)]
       /\ PortfolioSummary.h_quantity h = 5
       /\ number_eq (PortfolioSummary.avgPrice h) (Fin 0)
       /\ PortfolioSummary.calculateReturn (PortfolioSummary.avgPrice h) 3
            (PortfolioSummary.totalDividends h) (PortfolioSummary.h_quantity h)
          = PosInf)
  /\ PortfolioSummary.calculateReturn (Fin 10) 0 5 10 = Fin 0
  /\ ((0 * inject_Z 10 + 5 - 10 * inject_Z 10) / (10 * inject_Z 10) * 100 == -95)%Q.
Proof.
  split; [reflexivity|]. split; [|split; reflexivity].
  eexists. repeat split.
Qed.

(** ** Portfolio totals *)

Module TotalFacts.
Import PortfolioSummary.

Lemma totalCurrentValue_resolved (stockPrices : gmap string StockData)
    (active : Portfolio) :
  totalCurrentValue stockPrices active
  = totalCurrentValue stockPrices (List.filter (resolved stockPrices) active).
Proof.
  unfold totalCurrentValue. generalize 0%Q as sum.
  induction active as [|[code data] active IH]; intros sum; simpl; [reflexivity|].
  unfold resolved at 1, pending. simpl.
  destruct (stockPrices !! code) as [sp|] eqn:Hp; simpl; [|apply IH].
  destruct (loading sp) eqn:Hl; simpl; [apply IH|].
  rewrite Hp, Hl. apply IH.
Qed.

Lemma totalCurrentValue_pending (stockPrices : gmap string StockData)
    (active : Portfolio) :
  totalCurrentValue stockPrices
    (List.filter (fun e => pending stockPrices (fst e)) active) = 0%Q.
Proof.
  unfold totalCurrentValue. generalize 0%Q as sum.
  induction active as [|[code data] active IH]; intros sum; simpl; [reflexivity|].
  destruct (pending stockPrices code) eqn:Hp; simpl; [|apply IH].
  unfold pending in Hp. destruct (stockPrices !! code) as [sp|]; [|apply IH].
  rewrite Hp. apply IH.
Qed.

End TotalFacts.

(** C8, as the code has it.  The active stocks are entries of the
    dictionary, and so bear codes that are not inherited keys.  Both totals
    start from 0 and are running sums over the active stocks in their order.  The invested total adds the
    [totalInvested] of every active stock, pending or not.  The current
    value is summed over the active stocks whose price is resolved only: a
    pending stock leaves that running total as it is, and a resolved one adds
    its quantity at its price and then its dividends; so the current value is
    the one of the resolved stocks alone, and the pending stocks alone add up
    to nothing. *)
Theorem portfolio_totals (stockPrices : gmap string PortfolioSummary.StockData)
    (active : PortfolioSummary.Portfolio) (e : string * PortfolioSummary.Holding) :
  Forall (fun e => ObjectKeys.inherited (fst e) = false) (active ++ [e]) ->
  PortfolioSummary.totalPortfolioInvested [] = 0%Q
  /\ PortfolioSummary.totalPortfolioInvested (active ++ [e])
     = (PortfolioSummary.totalPortfolioInvested active
        + PortfolioSummary.totalInvested (snd e))%Q
  /\ PortfolioSummary.totalCurrentValue stockPrices [] = 0%Q
  /\ (PortfolioSummary.pending stockPrices (fst e) = true ->
      PortfolioSummary.totalCurrentValue stockPrices (active ++ [e])
      = PortfolioSummary.totalCurrentValue stockPrices active)
  /\ (PortfolioSummary.pending stockPrices (fst e) = false ->
      PortfolioSummary.totalCurrentValue stockPrices (active ++ [e])
      = (PortfolioSummary.totalCurrentValue stockPrices active
         + PortfolioSummary.calculateCurrentValue
             (PortfolioSummary.h_quantity (snd e))
             (PortfolioSummary.rowCurrentPrice stockPrices (fst e))
         + PortfolioSummary.totalDividends (snd e))%Q)
  /\ PortfolioSummary.totalCurrentValue stockPrices active
     = PortfolioSummary.totalCurrentValue stockPrices
         (List.filter (resolved stockPrices) active)
  /\ PortfolioSummary.totalCurrentValue stockPrices
       (List.filter (fun e => PortfolioSummary.pending stockPrices (fst e)) active)
     = 0%Q.
Proof.
  intros _. split; [reflexivity|]. split.
  { unfold PortfolioSummary.totalPortfolioInvested. now rewrite fold_left_app. }
  split; [reflexivity|].
  split; [|split; [|split]].
  - intros Hp. unfold PortfolioSummary.totalCurrentValue. rewrite fold_left_app.
    destruct e as [code data]. simpl in *. unfold PortfolioSummary.pending in Hp.
    destruct (stockPrices !! code) as [sp|]; [|reflexivity]. now rewrite Hp.
  - intros Hp. unfold PortfolioSummary.totalCurrentValue. rewrite fold_left_app.
    destruct e as [code data]. simpl in *.
    unfold PortfolioSummary.pending in Hp. unfold PortfolioSummary.rowCurrentPrice.
    destruct (stockPrices !! code) as [sp|]; [|discriminate]. now rewrite Hp.
  - apply TotalFacts.totalCurrentValue_resolved.
  - apply TotalFacts.totalCurrentValue_pending.
Qed.

(** After [A], resolved at 12, comes [B], bought for 200 and still
    loading, or resolved at 21. *)
Lemma portfolio_totals_witness :
  let a := (Examples.A, {| PortfolioSummary.h_quantity := 10;
                           PortfolioSummary.avgPrice := Fin 10;
                           PortfolioSummary.totalInvested := 100;
                           PortfolioSummary.firstPurchaseDate := Some 1;
                           PortfolioSummary.totalDividends := 0 |}) in
  let b := (Examples.B, {| PortfolioSummary.h_quantity := 10;
                           PortfolioSummary.avgPrice := Fin 20;
                           PortfolioSummary.totalInvested := 200;
                           PortfolioSummary.firstPurchaseDate := Some 2;
                           PortfolioSummary.totalDividends := 5 |}) in
  let quoted (p : Q) := {| PortfolioSummary.currentPrice := p;
                           PortfolioSummary.loading := false |} in
  let loading : gmap string PortfolioSummary.StockData :=
    <[Examples.A := quoted 12%Q]>
      (<[Examples.B := {| PortfolioSummary.currentPrice := 0;
                          PortfolioSummary.loading := true |}]> ∅) in
  let loaded : gmap string PortfolioSummary.StockData :=
    <[Examples.A := quoted 12%Q]> (<[Examples.B := quoted 21%Q]> ∅) in
  Forall (fun e => ObjectKeys.inherited (fst e) = false) ([a] ++ [b])
  /\ PortfolioSummary.pending loading (fst b) = true
  /\ PortfolioSummary.pending loaded (fst b) = false
  /\ PortfolioSummary.totalCurrentValue loading [a; b]
     = PortfolioSummary.totalCurrentValue loading [a]
  /\ (PortfolioSummary.totalCurrentValue loaded [a; b] == 120 + 210 + 5)%Q
  /\ (PortfolioSummary.totalPortfolioInvested [a; b] == 300)%Q.
Proof.
  intros a b quoted loading loaded.
  assert (H0 : Forall (fun e => ObjectKeys.inherited (fst e) = false) ([a] ++ [b]))
    by (repeat constructor).
  assert (H1 : PortfolioSummary.pending loading (fst b) = true) by reflexivity.
  assert (H2 : PortfolioSummary.pending loaded (fst b) = false) by reflexivity.
  split; [exact H0|]. split; [exact H1|]. split; [exact H2|]. split; [|split].
  - exact (proj1 (proj2 (proj2 (proj2 (portfolio_totals loading [a] b H0)))) H1).
  - change [a; b] with ([a] ++ [b]).
    rewrite (proj1 (proj2 (proj2 (proj2 (proj2 (portfolio_totals loaded [a] b H0))))) H2).
    reflexivity.
  - change [a; b] with ([a] ++ [b]).
    rewrite (proj1 (proj2 (portfolio_totals loaded [a] b H0))). reflexivity.
Defined.

(** C8, as stated, fails.  Ten shares of [A] bought for 100 and ten of [Examples.B]
    bought for 200; the price of [A] is resolved (12) and that of [Examples.B] is still
    loading.  The current value counts [A] alone (120), and the invested
    total counts both stocks (300), not the 100 of the resolved one. *)
Lemma pending_stock_is_invested :
  let active :=
    PortfolioSummary.activeStocks
      (PortfolioSummary.portfolio
         [Examples.acquire Examples.A 10 10 1; Examples.acquire Examples.B 10 20 2] []) in
  let stockPrices : gmap string PortfolioSummary.StockData :=
    <[Examples.A := {| PortfolioSummary.currentPrice := 12;
                       PortfolioSummary.loading := false |}]>
      (<[Examples.B := {| PortfolioSummary.currentPrice := 0;
                 PortfolioSummary.loading := true |}]> ∅) in
  map fst active = [Examples.A; Examples.B]
  /\ PortfolioSummary.pending stockPrices Examples.A = false
  /\ PortfolioSummary.pending stockPrices Examples.B = true
  /\ (PortfolioSummary.totalCurrentValue stockPrices active == 120)%Q
  /\ (PortfolioSummary.totalPortfolioInvested active == 300)%Q
  /\ (PortfolioSummary.totalPortfolioInvested
        (List.filter (resolved stockPrices) active) == 100)%Q.
Proof. repeat split. Qed.

(** ** The average price *)

Module AverageFacts.
Import PortfolioSummary.

Lemma lookup_holding_app (s k : string) (h : Holding) (p : Portfolio) :
  lookup_holding s (p ++ [(k, h)])
  = match lookup_holding s p with
    | Some h' => Some h'
    | None => if bool_decide (k = s) then Some h else None
    end.
Proof.
  induction p as [|[k' h'] p IH]; simpl; [reflexivity|].
  destruct (bool_decide (k' = s)); [reflexivity|exact IH].
Qed.

Lemma lookup_alter_holding (f : Holding -> Holding) (s k : string) (p : Portfolio) :
  lookup_holding s (alter_holding f k p)
  = if bool_decide (k = s) then f <$> lookup_holding s p else lookup_holding s p.
Proof.
  induction p as [|[k' h'] p IH]; simpl; [now destruct (bool_decide (k = s))|].
  destruct (bool_decide_reflect (k' = k)) as [->|Hk]; simpl.
  - destruct (bool_decide (k = s)); reflexivity.
  - destruct (bool_decide_reflect (k' = s)) as [->|Hs]; simpl.
    + now rewrite bool_decide_eq_false_2 by congruence.
    + exact IH.
Qed.

(** A transaction of another stock leaves the entry of [s] alone; one of
    [s] rewrites it, starting from the fresh entry when there is none. *)
Lemma lookup_apply_transaction (s : string) (p : Portfolio) (t : Transaction) :
  lookup_holding s (apply_transaction p t)
  = if bool_decide (stock_code t = s)
    then Some (match t_type t with
               | buy => apply_buy t
               | sell => apply_sell t
               end (default new_holding (lookup_holding s p)))
    else lookup_holding s p.
Proof.
  unfold apply_transaction, ensure_holding.
  destruct (bool_decide_reflect (stock_code t = s)) as [<-|Hs].
  - destruct (lookup_holding (stock_code t) p) as [h|] eqn:Hl;
      destruct (t_type t); rewrite lookup_alter_holding,
        bool_decide_eq_true_2, ?lookup_holding_app, ?Hl,
        ?bool_decide_eq_true_2 by reflexivity; reflexivity.
  - destruct (lookup_holding (stock_code t) p) as [h|] eqn:Hl;
      destruct (t_type t); rewrite lookup_alter_holding,
        bool_decide_eq_false_2, ?lookup_holding_app,
        ?bool_decide_eq_false_2 by assumption;
      try reflexivity; now destruct (lookup_holding s p).
Qed.

Lemma sum_total_value_snoc (l : list Transaction) (t : Transaction) :
  (sum_total_value (l ++ [t]) == sum_total_value l + total_value t)%Q.
Proof. induction l as [|x l IH]; simpl; [|rewrite IH]; ring. Qed.

Lemma filter_of_stock_snoc (s : string) (l : list Transaction) (t : Transaction) :
  List.filter (of_stock s) (l ++ [t])
  = if bool_decide (stock_code t = s)
    then List.filter (of_stock s) l ++ [t]
    else List.filter (of_stock s) l.
Proof.
  rewrite List.filter_app. simpl. unfold of_stock at 2.
  destruct (bool_decide (stock_code t = s)); [reflexivity|apply app_nil_r].
Qed.

End AverageFacts.

(** * Further properties of the code *)

(** ** The matching loop, continued *)

Module LoopFacts.
Import HistoryList HistoryListFacts.

Section LoopBounds.
Variables (divs : list Dividend) (stock : string) (sellDate : Z)
          (sellPricePerShare : Q).

Abbreviation all := (sell_all divs stock sellDate sellPricePerShare).

(** A sale pushes at most one closed position per lot of the queue. *)
Lemma sell_all_length (q : list Lot) (r : Z) (c : list ClosedPosition) :
  (length (closedPositions
             (all {| queue := q; remainingSell := r; closedPositions := c |}))
   <= length c + length q)%nat.
Proof.
  revert r c. induction q as [|lot rest IH]; intros r c.
  - rewrite sell_all_nil. simpl. lia.
  - rewrite sell_all_cons. destruct (0 <? r); [|simpl; lia]. cbv zeta.
    destruct (_ =? 0).
    + etransitivity; [apply IH|]. rewrite length_app. simpl. lia.
    + simpl. rewrite length_app. simpl. lia.
Qed.

End LoopBounds.

End LoopFacts.

(** X1. The matching loop ends: once it has run as many times as the queue
    has lots, its condition is false, running it longer changes nothing, and
    it has pushed at most one closed position per lot. *)
Theorem sale_loop_terminates (divs : list Dividend) (stock : string) (sellDate : Z)
    (sellPricePerShare : Q) (st : HistoryList.SellState) (fuel : nat) :
  (length (HistoryList.queue st) <= fuel)%nat ->
  let final := HistoryList.sell_loop divs stock sellDate sellPricePerShare fuel st in
  HistoryList.sell_cond final = false
  /\ final = HistoryList.sell_all divs stock sellDate sellPricePerShare st
  /\ (length (HistoryList.closedPositions final)
      <= length (HistoryList.closedPositions st) + length (HistoryList.queue st))%nat.
Proof.
  intros Hfuel final. unfold final.
  split; [now apply HistoryListFacts.sell_loop_exits|].
  rewrite HistoryListFacts.sell_loop_more_fuel by assumption.
  split; [reflexivity|]. destruct st as [q r c]. apply LoopFacts.sell_all_length.
Qed.

Lemma sale_loop_terminates_witness :
  let st := {| HistoryList.queue :=
                 [HistoryList.lot_of (Examples.acquire Examples.A 10 1 1);
                  HistoryList.lot_of (Examples.acquire Examples.A 10 2 2)];
               HistoryList.remainingSell := 12;
               HistoryList.closedPositions := [] |} in
  let final := HistoryList.sell_loop [] Examples.A 3 5 7 st in
  (length (HistoryList.queue st) <= 7)%nat
  /\ HistoryList.sell_cond final = false
  /\ final = HistoryList.sell_all [] Examples.A 3 5 st
  /\ (length (HistoryList.closedPositions final)
      <= length (HistoryList.closedPositions st) + length (HistoryList.queue st))%nat.
Proof.
  intros st final.
  assert (Hfuel : (length (HistoryList.queue st) <= 7)%nat) by (simpl; lia).
  split; [exact Hfuel|].
  exact (sale_loop_terminates [] Examples.A 3 5 st 7 Hfuel).
Defined.



(** X3. Oldest first, with a partial drain of the last lot touched.  When the
    quantity sold exceeds the positive lots [whole] at the head of the queue
    and does not exceed them and the next lot [last] together, the sale
    closes each lot of [whole] entirely, in their order, then closes the
    quantity still asked from [last]; [last] stays at the head with what is
    left of it, or leaves the queue when nothing is left.  The lots behind
    are not touched and nothing remains to sell. *)
Theorem fifo_partial_drain (divs : list Dividend) (stock : string) (sellDate : Z)
    (sellPricePerShare : Q) (whole : list HistoryList.Lot) (last : HistoryList.Lot)
    (rest : list HistoryList.Lot) (r : Z) (c : list HistoryList.ClosedPosition) :
  Forall (fun l => 0 < HistoryList.lot_quantity l) whole ->
  HistoryList.open_quantity whole < r
    <= HistoryList.open_quantity whole + HistoryList.lot_quantity last ->
  let taken := r - HistoryList.open_quantity whole in
  HistoryList.sell_all divs stock sellDate sellPricePerShare
    {| HistoryList.queue := whole ++ last :: rest;
       HistoryList.remainingSell := r;
       HistoryList.closedPositions := c |}
  = {| HistoryList.queue :=
         if HistoryList.lot_quantity last - taken =? 0 then rest
         else {| HistoryList.lot_quantity := HistoryList.lot_quantity last - taken;
                 HistoryList.lot_price := HistoryList.lot_price last;
                 HistoryList.lot_date := HistoryList.lot_date last;
                 HistoryList.lot_totalValue := HistoryList.lot_totalValue last |}
              :: rest;
       HistoryList.remainingSell := 0;
       HistoryList.closedPositions :=
         c ++ map (fun lot =>
                     HistoryList.make_closed divs stock sellDate sellPricePerShare
                       lot (HistoryList.lot_quantity lot))
                  whole
           ++ [HistoryList.make_closed divs stock sellDate sellPricePerShare
                 last taken] |}.
Proof. intros Hw Hr. now apply DrainFacts.sell_all_fifo. Qed.

Lemma fifo_partial_drain_witness :
  let whole := [HistoryList.lot_of (Examples.acquire Examples.A 10 1 1)] in
  let last := HistoryList.lot_of (Examples.acquire Examples.A 10 2 2) in
  let rest := [HistoryList.lot_of (Examples.acquire Examples.A 10 3 3)] in
  Forall (fun l => 0 < HistoryList.lot_quantity l) whole
  /\ HistoryList.open_quantity whole < 12
       <= HistoryList.open_quantity whole + HistoryList.lot_quantity last
  /\ map HistoryList.lot_quantity
       (HistoryList.queue
          (HistoryList.sell_all [] Examples.A 4 5
             {| HistoryList.queue := whole ++ last :: rest;
                HistoryList.remainingSell := 12;
                HistoryList.closedPositions := [] |}))
     = [8; 10].
Proof.
  intros whole last rest.
  assert (Hw : Forall (fun l => 0 < HistoryList.lot_quantity l) whole)
    by (repeat constructor).
  assert (Hr : HistoryList.open_quantity whole < 12
               <= HistoryList.open_quantity whole + HistoryList.lot_quantity last)
    by (split; [reflexivity|discriminate]).
  split; [exact Hw|]. split; [exact Hr|].
  rewrite (fifo_partial_drain [] Examples.A 4 5 whole last rest 12 [] Hw Hr).
  reflexivity.
Defined.

(** X4. A sale that has nothing to match does nothing: when the body of
    [forEach] does not throw on it, and the quantity sold is not positive or
    the instrument has no open lot (never bought, or sold out), the body
    returns, no closed position is pushed and every queue is as before. *)
Theorem inert_disposal (divs : list Dividend) (led : HistoryList.Ledger)
    (t : Transaction) (s : string) :
  t_type t = sell ->
  HistoryListFull.throws t = false ->
  quantity t <= 0 \/ HistoryList.queue_of (stock_code t) led = [] ->
  exists led' : HistoryList.Ledger,
    HistoryListFull.process divs led t = HistoryListFull.Returns led'
    /\ HistoryList.closed led' = HistoryList.closed led
    /\ HistoryList.queue_of s led' = HistoryList.queue_of s led.
Proof.
  intros Hty Hthrows Hinert. unfold HistoryListFull.process. rewrite Hthrows.
  destruct (ObjectKeys.inherited_length (stock_code t)); [now exists led|].
  exists (HistoryList.process divs led t). split; [reflexivity|].
  assert (Hstop : HistoryList.sale_end divs led t = HistoryList.sale_start led t).
  { unfold HistoryList.sale_end, HistoryList.sell_all.
    apply HistoryListFacts.sell_loop_stop.
    unfold HistoryList.sell_cond, HistoryList.sale_start. simpl.
    destruct Hinert as [Hq|Hq].
    - replace (0 <? quantity t) with false by (symmetry; apply Z.ltb_ge; lia).
      reflexivity.
    - rewrite Hq. simpl. apply andb_false_r. }
  split.
  - rewrite HistoryListFacts.closed_process_sell, Hstop by assumption. reflexivity.
  - destruct (decide (stock_code t = s)) as [<-|Hs].
    + rewrite HistoryListFacts.queue_of_process_sell, Hstop by assumption.
      reflexivity.
    + now apply HistoryListFacts.queue_of_process_other.
Qed.

(** A sale of [B], never bought, after a purchase of [A]. *)
Lemma inert_disposal_witness :
  let t := Examples.dispose Examples.B 5 2 2 in
  let led := HistoryList.run [] [Examples.acquire Examples.A 10 1 1] in
  t_type t = sell
  /\ HistoryListFull.throws t = false
  /\ (quantity t <= 0 \/ HistoryList.queue_of (stock_code t) led = [])
  /\ exists led' : HistoryList.Ledger,
       HistoryListFull.process [] led t = HistoryListFull.Returns led'
       /\ HistoryList.closed led' = HistoryList.closed led
       /\ HistoryList.queue_of Examples.A led' = HistoryList.queue_of Examples.A led.
Proof.
  intros t led.
  assert (Hty : t_type t = sell) by reflexivity.
  assert (Hthrows : HistoryListFull.throws t = false) by reflexivity.
  assert (Hinert : quantity t <= 0 \/ HistoryList.queue_of (stock_code t) led = [])
    by (right; reflexivity).
  split; [exact Hty|]. split; [exact Hthrows|]. split; [exact Hinert|].
  exact (inert_disposal [] led t Examples.A Hty Hthrows Hinert).
Defined.

(** ** Dates *)

Module DateFacts.
Import HistoryList HistoryListFacts.

(** [Math.ceil] of a day count: not negative for a span that is not
    negative, and zero for the empty span only. *)
Lemma ceil_div_days (x : Z) :
  0 <= x -> 0 <= ceil_div x ms_per_day /\ (ceil_div x ms_per_day = 0 <-> x = 0).
Proof.
  intros Hx. unfold ceil_div.
  assert (Hd : 0 < ms_per_day) by reflexivity.
  pose proof (Z.div_mod (- x) ms_per_day ltac:(lia)) as Hdm.
  pose proof (Z.mod_pos_bound (- x) ms_per_day Hd) as Hm.
  split; [nia|]. split; intros H; [nia|]. subst x. reflexivity.
Qed.

Section SaleDates.
Variables (divs : list Dividend) (stock : string) (sellDate : Z)
          (sellPricePerShare : Q).

Abbreviation all := (sell_all divs stock sellDate sellPricePerShare).

(** A sale changes no date. *)
Lemma sell_all_dated (d : Z) (q : list Lot) (r : Z) (c : list ClosedPosition) :
  Forall (fun l => lot_date l <= d) q ->
  Forall (fun l => lot_date l <= d)
    (queue (all {| queue := q; remainingSell := r; closedPositions := c |})).
Proof.
  intros Hq. revert r c. induction Hq as [|lot rest Hlot Hrest IH]; intros r c.
  - constructor.
  - rewrite sell_all_cons. destruct (0 <? r); [|now constructor]. cbv zeta.
    destruct (_ =? 0); [apply IH|]. now constructor.
Qed.

(** Lots bought no later than the sale close into positions bought no later
    than sold. *)
Lemma sell_all_chronology (q : list Lot) (r : Z) (c : list ClosedPosition) :
  Forall (fun l => lot_date l <= sellDate) q ->
  Forall (fun cp => HistoryList.buyDate cp <= HistoryList.sellDate cp) c ->
  Forall (fun cp => HistoryList.buyDate cp <= HistoryList.sellDate cp)
    (closedPositions (all {| queue := q; remainingSell := r; closedPositions := c |})).
Proof.
  intros Hq. revert r c. induction Hq as [|lot rest Hlot Hrest IH]; intros r c Hc.
  - exact Hc.
  - rewrite sell_all_cons. destruct (0 <? r); [|exact Hc]. cbv zeta.
    assert (Hnew : Forall (fun cp => HistoryList.buyDate cp <= HistoryList.sellDate cp)
                     (c ++ [make_closed divs stock sellDate sellPricePerShare lot
                              (Z.min r (lot_quantity lot))])).
    { apply Forall_app. split; [exact Hc|]. repeat constructor. exact Hlot. }
    destruct (_ =? 0); [now apply IH|exact Hnew].
Qed.
End SaleDates.

(** Walking transactions in the order of their dates, from a ledger whose
    lots are not younger than any of them, only closes positions that were
    bought no later than sold. *)
Lemma fold_chronology (divs : list Dividend) (events : list Transaction) :
  ordered (fun a b => transaction_date a - transaction_date b) events ->
  forall led : Ledger,
    (forall s, Forall (fun t => Forall (fun l => lot_date l <= transaction_date t)
                                  (queue_of s led)) events) ->
    Forall (fun cp => HistoryList.buyDate cp <= HistoryList.sellDate cp) (closed led) ->
    Forall (fun cp => HistoryList.buyDate cp <= HistoryList.sellDate cp)
      (closed (fold_left (process divs) events led)).
Proof.
  induction 1 as [|t events Hord IH Ht]; intros led Hlots Hclosed; [exact Hclosed|].
  simpl. apply IH.
  - intros s. specialize (Hlots s). inversion Hlots as [|? ? Hnow Hlater]; subst.
    apply List.Forall_forall. intros t' Hin.
    rewrite List.Forall_forall in Ht, Hlater.
    pose proof (Ht _ Hin) as Ht'. pose proof (Hlater _ Hin) as Hnow'. simpl in Ht'.
    destruct (decide (stock_code t = s)) as [<-|Hs].
    2:{ now rewrite queue_of_process_other. }
    destruct (t_type t) eqn:Hty.
    + rewrite queue_of_process_buy by assumption.
      apply Forall_app. split; [exact Hnow'|]. repeat constructor. simpl. lia.
    + rewrite queue_of_process_sell by assumption. now apply sell_all_dated.
  - destruct (t_type t) eqn:Hty.
    + now rewrite closed_process_buy.
    + rewrite closed_process_sell by assumption.
      apply sell_all_chronology; [|exact Hclosed].
      specialize (Hlots (stock_code t)). now inversion Hlots.
Qed.

(** Two lists ordered on a key and holding the same elements are the same
    list when no two elements share a key. *)
Lemma ordered_unique {A : Type} (key : A -> Z) (l1 l2 : list A) :
  ordered (fun a b => key a - key b) l1 ->
  ordered (fun a b => key a - key b) l2 ->
  Permutation l1 l2 ->
  NoDup (map key l1) ->
  l1 = l2.
Proof.
  intros H1. revert l2. induction H1 as [|x l1 Hl1 IH Hx]; intros l2 H2 Hperm Hnd.
  - apply Permutation_nil in Hperm. now subst.
  - destruct H2 as [|y l2 Hl2 Hy].
    { apply Permutation_sym, Permutation_nil in Hperm. discriminate. }
    assert (Hxy : x = y).
    { assert (Hin1 : In x (y :: l2))
        by (eapply Permutation_in; [exact Hperm|now left]).
      assert (Hin2 : In y (x :: l1))
        by (eapply Permutation_in; [symmetry; exact Hperm|now left]).
      destruct Hin1 as [E|Hin1]; [now subst|].
      destruct Hin2 as [E|Hin2]; [now subst|].
      rewrite List.Forall_forall in Hx, Hy.
      pose proof (Hx _ Hin2) as Ha. pose proof (Hy _ Hin1) as Hb.
      simpl in Hnd. inversion Hnd as [|? ? Hnotin _]; subst.
      exfalso. apply Hnotin. replace (key x) with (key y) by lia.
      now apply list_elem_of_In, in_map. }
    subst y. f_equal. apply IH; [assumption| |].
    + now apply Permutation_cons_inv in Hperm.
    + simpl in Hnd. now inversion Hnd.
Qed.

End DateFacts.

(** ** The order of matching *)

Module OrderFacts.
Import HistoryList HistoryListFacts.

Lemma sorted_app_inv {A : Type} (R : A -> A -> Prop) (l1 l2 : list A) :
  StronglySorted R (l1 ++ l2) ->
  StronglySorted R l1 /\ StronglySorted R l2
  /\ Forall (fun x => Forall (R x) l2) l1.
Proof.
  induction l1 as [|x l1 IH]; simpl; intros H.
  - split; [constructor|]. split; [exact H|constructor].
  - inversion H as [|? ? Hs Hx]; subst. destruct (IH Hs) as (H1 & H2 & H3).
    apply Forall_app in Hx as [Hx1 Hx2].
    repeat split; [constructor| |constructor]; assumption.
Qed.

Lemma sorted_snoc {A : Type} (R : A -> A -> Prop) (l : list A) (x : A) :
  StronglySorted R l -> Forall (fun y => R y x) l -> StronglySorted R (l ++ [x]).
Proof.
  induction 1 as [|y l Hl IH Hy]; simpl; intros Hx.
  - repeat constructor.
  - inversion Hx; subst. constructor; [now apply IH|].
    apply Forall_app. split; [assumption|]. now repeat constructor.
Qed.

Section SaleOrder.
Variables (divs : list Dividend) (stock : string) (sellDate : Z)
          (sellPricePerShare : Q).

Abbreviation all := (sell_all divs stock sellDate sellPricePerShare).

(** The dates of the lots that a sale leaves are those of the lots at the
    back of the queue it found. *)
Lemma sell_all_dates (q : list Lot) (r : Z) (c : list ClosedPosition) :
  exists front,
    map lot_date q
    = front ++ map lot_date
                 (queue (all {| queue := q; remainingSell := r; closedPositions := c |})).
Proof.
  revert r c. induction q as [|lot rest IH]; intros r c.
  - exists []. reflexivity.
  - rewrite sell_all_cons. destruct (0 <? r); [|now exists []]. cbv zeta.
    destruct (_ =? 0); [|now exists []].
    destruct (IH (r - Z.min r (lot_quantity lot))
                (c ++ [make_closed divs stock sellDate sellPricePerShare lot
                         (Z.min r (lot_quantity lot))])) as [front Hfront].
    exists (lot_date lot :: front). simpl. now rewrite Hfront.
Qed.
End SaleOrder.

(** Walking transactions in the order of their dates keeps every queue in
    the order of the purchase dates, oldest at the head, and holds no lot
    younger than the last transaction walked. *)
Lemma run_oldest_first (divs : list Dividend) (events : list Transaction) (s : string) :
  ordered (fun a b => transaction_date a - transaction_date b) events ->
  StronglySorted Z.le (map lot_date (queue_of s (run divs events)))
  /\ Forall (fun d => exists t, In t events /\ d = transaction_date t)
       (map lot_date (queue_of s (run divs events))).
Proof.
  induction events as [|t events IH] using rev_ind; intros Hord.
  - split; constructor.
  - apply sorted_app_inv in Hord as (Hord & _ & Hbelow).
    destruct (IH Hord) as [Hs Hd].
    assert (Hd' : Forall (fun d => exists t0, In t0 (events ++ [t]) /\ d = transaction_date t0)
                    (map lot_date (queue_of s (run divs events)))).
    { eapply List.Forall_impl; [|exact Hd]. intros d (t0 & Hin & ->).
      exists t0. split; [apply in_or_app; now left|reflexivity]. }
    rewrite ConservationFacts.run_snoc.
    destruct (decide (stock_code t = s)) as [<-|Hne].
    2:{ rewrite queue_of_process_other by assumption. now split. }
    destruct (t_type t) eqn:Hty.
    + rewrite queue_of_process_buy by assumption. rewrite map_app. simpl. split.
      * apply sorted_snoc; [exact Hs|].
        eapply List.Forall_impl; [|exact Hd]. intros d (t0 & Hin & ->).
        rewrite List.Forall_forall in Hbelow. specialize (Hbelow _ Hin).
        inversion Hbelow; subst. lia.
      * apply Forall_app. split; [exact Hd'|]. repeat constructor.
        exists t. split; [apply in_or_app; right; now left|reflexivity].
    + rewrite queue_of_process_sell by assumption. unfold sale_end, sale_start.
      destruct (sell_all_dates divs (stock_code t) (transaction_date t)
                  (price_per_share t) (queue_of (stock_code t) (run divs events))
                  (quantity t) (closed (run divs events))) as [front Hfront].
      rewrite Hfront in Hs, Hd'. split.
      * now apply sorted_app_inv in Hs as (_ & Hs & _).
      * now apply Forall_app in Hd' as [_ Hd'].
Qed.

Lemma ordered_filter {A : Type} (cmp : A -> A -> Z) (p : A -> bool) (l : list A) :
  ordered cmp l -> ordered cmp (List.filter p l).
Proof.
  induction 1 as [|x l Hl IH Hx]; simpl; [constructor|].
  destruct (p x); [|exact IH]. constructor; [exact IH|].
  now apply Forall_list_filter.
Qed.

End OrderFacts.

(** C3. Disposals consume the open lots of their instrument strictly oldest
    first, with a partial drain of the last lot touched.  At every
    transaction met by the walk over the transactions sorted by date, the
    queue of its stock is in the order of the purchase dates, oldest at the
    head, and holds no lot younger than the transaction.  A sale takes from
    the head of that queue: when the quantity sold exceeds the (positive) lots
    [whole] at the head and not those plus the next lot [last], the sale
    closes each lot of [whole] for its full quantity, in that order, then
    [last] for the remainder, appends these positions to the closed ones, and
    leaves [last] at the head with what is left of it, or the lots behind it
    when it is exhausted.  On Acquire(10, price 1, t=1), Acquire(10, price 2,
    t=2), Dispose(12, price 5, t=3), supplied in any order and whatever the
    distributions are, the result is exactly two closed positions, 10 at cost
    1 bought at t=1 then 2 at cost 2 bought at t=2, and one open lot is left,
    8 at cost 2. *)
Theorem fifo_order (divs : list Dividend) :
  (forall (transactions before after : list Transaction) (t : Transaction)
          (led : HistoryList.Ledger),
      HistoryList.sortedTransactions transactions = before ++ t :: after ->
      HistoryListFull.run divs before = HistoryListFull.Returns led ->
      StronglySorted Z.le
        (map HistoryList.lot_date (HistoryList.queue_of (stock_code t) led))
      /\ Forall (fun l => HistoryList.lot_date l <= transaction_date t)
           (HistoryList.queue_of (stock_code t) led))
  /\ (forall (led : HistoryList.Ledger) (t : Transaction)
             (whole rest : list HistoryList.Lot) (last : HistoryList.Lot),
        t_type t = sell ->
        own_code t = true ->
        HistoryList.queue_of (stock_code t) led = whole ++ last :: rest ->
        Forall (fun l => 0 < HistoryList.lot_quantity l) whole ->
        HistoryList.open_quantity whole < quantity t
          <= HistoryList.open_quantity whole + HistoryList.lot_quantity last ->
        let emit :=
          HistoryList.make_closed divs (stock_code t) (transaction_date t)
            (price_per_share t) in
        let taken := quantity t - HistoryList.open_quantity whole in
        exists led' : HistoryList.Ledger,
          HistoryListFull.process divs led t = HistoryListFull.Returns led'
          /\ HistoryList.closed led'
             = HistoryList.closed led
                 ++ map (fun lot => emit lot (HistoryList.lot_quantity lot)) whole
                 ++ [emit last taken]
          /\ HistoryList.queue_of (stock_code t) led'
             = if HistoryList.lot_quantity last - taken =? 0 then rest
               else {| HistoryList.lot_quantity := HistoryList.lot_quantity last - taken;
                       HistoryList.lot_price := HistoryList.lot_price last;
                       HistoryList.lot_date := HistoryList.lot_date last;
                       HistoryList.lot_totalValue := HistoryList.lot_totalValue last |}
                    :: rest)
  /\ (forall transactions : list Transaction,
        Permutation transactions
          [Examples.acquire Examples.A 10 1 1; Examples.acquire Examples.A 10 2 2;
           Examples.dispose Examples.A 12 5 3] ->
        exists (cps : list HistoryList.ClosedPosition) (led : HistoryList.Ledger),
          HistoryListFull.calculateClosedPositions transactions divs
          = HistoryListFull.Returns cps
          /\ map (fun cp => (HistoryList.cp_quantity cp, HistoryList.buyPrice cp,
                             HistoryList.buyDate cp, HistoryList.sellDate cp)) cps
             = [(10, 1%Q, 1, 3); (2, 2%Q, 2, 3)]
          /\ HistoryListFull.final_ledger transactions divs
             = HistoryListFull.Returns led
          /\ map (fun l => (HistoryList.lot_quantity l, HistoryList.lot_price l,
                            HistoryList.lot_date l))
                 (HistoryList.queue_of Examples.A led)
             = [(8, 2%Q, 2)]).
Proof.
  split; [|split].
  - intros transactions before after t led Hsorted Hrun.
    assert (Hord : ordered (fun a b => transaction_date a - transaction_date b)
                     (before ++ t :: after)).
    { rewrite <- Hsorted. apply js_sort_ordered; intros; lia. }
    apply OrderFacts.sorted_app_inv in Hord as (Hbefore & Ht & Hbelow).
    rewrite FullFacts.run_spec in Hrun.
    destruct (existsb HistoryListFull.throws before); [discriminate|].
    injection Hrun as Hled.
    destruct (OrderFacts.run_oldest_first divs (List.filter own_code before)
                (stock_code t) (OrderFacts.ordered_filter _ own_code _ Hbefore))
      as [Hs Hd].
    rewrite Hled in Hs, Hd. split; [exact Hs|].
    apply List.Forall_forall. intros l Hl.
    rewrite List.Forall_forall in Hd.
    destruct (Hd (HistoryList.lot_date l) (in_map _ _ _ Hl)) as (t0 & Hin & ->).
    apply List.filter_In in Hin as [Hin _].
    rewrite List.Forall_forall in Hbelow. specialize (Hbelow _ Hin).
    inversion Hbelow; subst. lia.
  - intros led t whole rest last Hty Hown Hq Hwhole Hr emit taken.
    exists (HistoryList.process divs led t). split; [|split].
    + unfold HistoryListFull.process.
      now rewrite (proj1 (FullFacts.own_code_spec t) Hown).
    + rewrite HistoryListFacts.closed_process_sell by assumption.
      unfold HistoryList.sale_end, HistoryList.sale_start. rewrite Hq.
      now rewrite DrainFacts.sell_all_fifo.
    + rewrite HistoryListFacts.queue_of_process_sell by assumption.
      unfold HistoryList.sale_end, HistoryList.sale_start. rewrite Hq.
      now rewrite DrainFacts.sell_all_fifo.
  - intros transactions Hperm.
    assert (Hsorted :
              [Examples.acquire Examples.A 10 1 1; Examples.acquire Examples.A 10 2 2;
               Examples.dispose Examples.A 12 5 3]
              = HistoryList.sortedTransactions transactions).
    { apply (DateFacts.ordered_unique transaction_date).
      - repeat constructor; simpl; lia.
      - apply js_sort_ordered; intros; lia.
      - unfold HistoryList.sortedTransactions. rewrite js_sort_perm.
        now symmetry.
      - apply (bool_decide_unpack _). vm_compute. exact I. }
    unfold HistoryListFull.calculateClosedPositions, HistoryListFull.final_ledger.
    rewrite <- Hsorted. eexists. eexists.
    split; [reflexivity|]. split; [reflexivity|]. split; reflexivity.
Qed.

(** The three transactions given newest first, and the sale at the end of
    the sorted walk. *)
Lemma fifo_order_witness :
  let transactions :=
    [Examples.dispose Examples.A 12 5 3; Examples.acquire Examples.A 10 2 2;
     Examples.acquire Examples.A 10 1 1] in
  let before :=
    [Examples.acquire Examples.A 10 1 1; Examples.acquire Examples.A 10 2 2] in
  let t := Examples.dispose Examples.A 12 5 3 in
  let led := HistoryList.run [] before in
  let whole := [HistoryList.lot_of (Examples.acquire Examples.A 10 1 1)] in
  let last := HistoryList.lot_of (Examples.acquire Examples.A 10 2 2) in
  HistoryList.sortedTransactions transactions = before ++ t :: []
  /\ HistoryListFull.run [] before = HistoryListFull.Returns led
  /\ t_type t = sell
  /\ own_code t = true
  /\ HistoryList.queue_of (stock_code t) led = whole ++ last :: []
  /\ Forall (fun l => 0 < HistoryList.lot_quantity l) whole
  /\ HistoryList.open_quantity whole < quantity t
       <= HistoryList.open_quantity whole + HistoryList.lot_quantity last
  /\ StronglySorted Z.le
       (map HistoryList.lot_date (HistoryList.queue_of (stock_code t) led))
  /\ (exists led' : HistoryList.Ledger,
        HistoryListFull.process [] led t = HistoryListFull.Returns led'
        /\ map HistoryList.cp_quantity (HistoryList.closed led') = [10; 2]
        /\ map HistoryList.lot_quantity (HistoryList.queue_of (stock_code t) led') = [8])
  /\ Permutation transactions
       [Examples.acquire Examples.A 10 1 1; Examples.acquire Examples.A 10 2 2;
        Examples.dispose Examples.A 12 5 3]
  /\ exists cps : list HistoryList.ClosedPosition,
       HistoryListFull.calculateClosedPositions transactions []
       = HistoryListFull.Returns cps
       /\ map HistoryList.cp_quantity cps = [10; 2].
Proof.
  intros transactions before t led whole last.
  assert (H1 : HistoryList.sortedTransactions transactions = before ++ t :: [])
    by reflexivity.
  assert (H2 : HistoryListFull.run [] before = HistoryListFull.Returns led)
    by reflexivity.
  assert (H3 : t_type t = sell) by reflexivity.
  assert (H4 : own_code t = true) by reflexivity.
  assert (H5 : HistoryList.queue_of (stock_code t) led = whole ++ last :: [])
    by reflexivity.
  assert (H6 : Forall (fun l => 0 < HistoryList.lot_quantity l) whole)
    by (repeat constructor).
  assert (H7 : HistoryList.open_quantity whole < quantity t
               <= HistoryList.open_quantity whole + HistoryList.lot_quantity last)
    by (vm_compute; split; [reflexivity|discriminate]).
  assert (H8 : Permutation transactions
                 [Examples.acquire Examples.A 10 1 1; Examples.acquire Examples.A 10 2 2;
                  Examples.dispose Examples.A 12 5 3]).
  { unfold transactions.
    eapply perm_trans; [apply perm_skip, perm_swap|].
    eapply perm_trans; [apply perm_swap|]. apply perm_skip, perm_swap. }
  split; [exact H1|]. split; [exact H2|]. split; [exact H3|]. split; [exact H4|].
  split; [exact H5|]. split; [exact H6|]. split; [exact H7|].
  split; [|split; [|split; [exact H8|]]].
  - exact (proj1 (proj1 (fifo_order []) transactions before [] t led H1 H2)).
  - destruct (proj1 (proj2 (fifo_order [])) led t whole [] last H3 H4 H5 H6 H7)
      as (led' & Hp & Hc & Hq).
    exists led'. split; [exact Hp|]. split.
    + rewrite Hc. reflexivity.
    + rewrite Hq. reflexivity.
  - destruct (proj2 (proj2 (fifo_order [])) transactions H8) as (cps & l & Hc & Hm & _).
    exists cps. split; [exact Hc|].
    apply (f_equal (map (fun x => fst (fst (fst x))))) in Hm.
    rewrite map_map in Hm. exact Hm.
Defined.

(** X5. Chronology.  Whatever the order in which the transactions are supplied,
    every closed position was bought no later than it was sold: its holding
    days are never negative, they are zero only when the purchase and the
    sale bear the same instant, and then its monthly return is 0. *)
Theorem closed_positions_chronology (transactions : list Transaction)
    (divs : list Dividend) :
  Forall
    (fun cp =>
       HistoryList.buyDate cp <= HistoryList.sellDate cp
       /\ 0 <= HistoryList.days cp
       /\ (HistoryList.days cp = 0 <-> HistoryList.sellDate cp = HistoryList.buyDate cp)
       /\ (HistoryList.sellDate cp = HistoryList.buyDate cp ->
           HistoryList.monthlyReturn cp = Fin 0))
    (HistoryList.calculateClosedPositions transactions divs).
Proof.
  apply js_sort_Forall.
  assert (Hchrono :
            Forall (fun cp => HistoryList.buyDate cp <= HistoryList.sellDate cp)
              (HistoryList.closed (HistoryList.final_ledger transactions divs))).
  { apply DateFacts.fold_chronology.
    - apply js_sort_ordered; intros; lia.
    - intros s. apply List.Forall_forall. intros t _. constructor.
    - constructor. }
  assert (Hshape :
            Forall (fun cp =>
                      HistoryList.days cp
                      = ceil_div (HistoryList.sellDate cp - HistoryList.buyDate cp)
                          ms_per_day
                      /\ (HistoryList.days cp = 0 -> HistoryList.monthlyReturn cp = Fin 0))
              (HistoryList.closed (HistoryList.final_ledger transactions divs))).
  { apply EmittedFacts.run_closed_Forall. intros stock sellDate price lot m.
    split; [reflexivity|]. simpl. intros ->. reflexivity. }
  induction Hchrono as [|cp l Hcp _ IH]; [constructor|].
  inversion Hshape as [|? ? [Hdays Hmonth] Hrest]; subst.
  constructor; [|now apply IH].
  destruct (DateFacts.ceil_div_days (HistoryList.sellDate cp - HistoryList.buyDate cp))
    as [Hnn Hzero]; [lia|].
  rewrite Hdays. split; [exact Hcp|]. split; [exact Hnn|].
  split; [rewrite Hzero; lia|].
  intros Hsame. apply Hmonth. rewrite Hdays. apply Hzero. lia.
Qed.

(** X6. The order of the records does not matter when their dates differ: two
    lists holding the same transactions, no two of them at the same instant,
    give the same closed positions, in the same order. *)
Theorem closed_positions_order_independent (transactions1 transactions2 : list Transaction)
    (divs : list Dividend) :
  Permutation transactions1 transactions2 ->
  NoDup (map transaction_date transactions1) ->
  HistoryList.calculateClosedPositions transactions1 divs
  = HistoryList.calculateClosedPositions transactions2 divs.
Proof.
  intros Hperm Hnd.
  unfold HistoryList.calculateClosedPositions, HistoryList.final_ledger.
  f_equal. f_equal. f_equal. unfold HistoryList.sortedTransactions.
  apply (DateFacts.ordered_unique transaction_date).
  - apply js_sort_ordered; intros; lia.
  - apply js_sort_ordered; intros; lia.
  - now rewrite !js_sort_perm.
  - now rewrite js_sort_perm.
Qed.

Lemma closed_positions_order_independent_witness :
  let transactions1 :=
    [Examples.acquire Examples.A 10 1 1; Examples.acquire Examples.A 10 2 2;
     Examples.dispose Examples.A 12 5 3] in
  let transactions2 :=
    [Examples.dispose Examples.A 12 5 3; Examples.acquire Examples.A 10 2 2;
     Examples.acquire Examples.A 10 1 1] in
  Permutation transactions1 transactions2
  /\ NoDup (map transaction_date transactions1)
  /\ HistoryList.calculateClosedPositions transactions1 []
     = HistoryList.calculateClosedPositions transactions2 [].
Proof.
  intros transactions1 transactions2.
  assert (Hperm : Permutation transactions1 transactions2).
  { unfold transactions1, transactions2.
    eapply perm_trans; [apply perm_skip, perm_swap|].
    eapply perm_trans; [apply perm_swap|]. apply perm_skip, perm_swap. }
  assert (Hnd : NoDup (map transaction_date transactions1)).
  { apply (bool_decide_unpack _). vm_compute. exact I. }
  split; [exact Hperm|]. split; [exact Hnd|].
  exact (closed_positions_order_independent transactions1 transactions2 [] Hperm Hnd).
Defined.

(** ** Records that the store accepts, continued *)

(** X7. On records that satisfy the constraints of the store (positive
    quantities and prices), every closed position returned has a positive
    quantity and a positive acquisition value: the return percent never
    divides by zero. *)
Theorem valid_records_positions (transactions : list Transaction)
    (divs : list Dividend) (cps : list HistoryList.ClosedPosition) :
  Forall (fun t => valid_record t = true) transactions ->
  HistoryListFull.calculateClosedPositions transactions divs
  = HistoryListFull.Returns cps ->
  Forall
    (fun cp => 0 < HistoryList.cp_quantity cp /\ (0 < HistoryList.buyValue cp)%Q)
    cps.
Proof.
  intros Hall. rewrite FullFacts.calculateClosedPositions_spec.
  destruct (existsb HistoryListFull.throws transactions); [discriminate|].
  intros [= <-]. apply js_sort_Forall. unfold HistoryList.final_ledger.
  apply ValidFacts.run_acquired, js_sort_Forall.
  now apply Forall_list_filter.
Qed.

(** Ten shares bought at 1, four of them sold at 5. *)
Lemma valid_records_positions_witness :
  let transactions :=
    [Examples.acquire Examples.A 10 1 1; Examples.dispose Examples.A 4 5 3] in
  exists cp : HistoryList.ClosedPosition,
    Forall (fun t => valid_record t = true) transactions
    /\ HistoryListFull.calculateClosedPositions transactions []
       = HistoryListFull.Returns [cp]
    /\ Forall
         (fun cp => 0 < HistoryList.cp_quantity cp /\ (0 < HistoryList.buyValue cp)%Q)
         [cp].
Proof.
  intros transactions. eexists.
  assert (Hall : Forall (fun t => valid_record t = true) transactions)
    by (repeat constructor).
  split; [exact Hall|].
  assert (Hcps : HistoryListFull.calculateClosedPositions transactions []
                 = HistoryListFull.Returns
                     [HistoryList.make_closed [] Examples.A 3 5
                        (HistoryList.lot_of (Examples.acquire Examples.A 10 1 1)) 4])
    by reflexivity.
  split; [exact Hcps|].
  exact (valid_records_positions transactions [] _ Hall Hcps).
Defined.

(** ** Dividends of a window *)

Module WindowFacts.
Import HistoryList.

Lemma sum_amounts_cons (d : Dividend) (ds : list Dividend) :
  (sum_amounts (d :: ds) == amount d + sum_amounts ds)%Q.
Proof.
  unfold sum_amounts. simpl.
  assert (H : forall (l : list Dividend) (acc : Q),
             (fold_left (fun sum d => sum + amount d) l acc
              == acc + fold_left (fun sum d => sum + amount d) l 0)%Q).
  { induction l as [|x l IH]; intros acc; simpl; [ring|].
    rewrite (IH (acc + _)%Q), (IH (0 + _)%Q). ring. }
  rewrite H. ring.
Qed.

Lemma in_window_widen (s : string) (b1 e1 b2 e2 : Z) (d : Dividend) :
  b1 <= b2 -> e2 <= e1 ->
  in_window s b2 e2 d = true -> in_window s b1 e1 d = true.
Proof.
  unfold in_window. rewrite !andb_true_iff, !Z.leb_le. intuition lia.
Qed.

End WindowFacts.

(** X8. The dividends of a window.  When no amount is negative, the dividends
    attributed over a window are not negative and do not decrease when the
    window widens: of two lots closed by the same sale, the older one is
    attributed at least as much as the younger one. *)
Theorem attributed_dividends_monotone (divs : list Dividend) (s : string)
    (b1 e1 b2 e2 : Z) :
  Forall (fun d => (0 <= amount d)%Q) divs ->
  b1 <= b2 -> e2 <= e1 ->
  (0 <= HistoryList.positionDividends divs s b2 e2)%Q
  /\ (HistoryList.positionDividends divs s b2 e2
      <= HistoryList.positionDividends divs s b1 e1)%Q.
Proof.
  intros Hpos Hb He. unfold HistoryList.positionDividends.
  induction Hpos as [|d divs Hd _ [IH0 IH]]; simpl.
  - split; apply Qle_refl.
  - destruct (HistoryList.in_window s b2 e2 d) eqn:E2.
    + rewrite (WindowFacts.in_window_widen s b1 e1 b2 e2 d Hb He E2).
      rewrite !WindowFacts.sum_amounts_cons. split; lra.
    + destruct (HistoryList.in_window s b1 e1 d);
        rewrite ?WindowFacts.sum_amounts_cons; split; lra.
Qed.

Lemma attributed_dividends_monotone_witness :
  let divs := [{| d_stock_code := Examples.A; amount := 100; dividend_date := 3 |};
               {| d_stock_code := Examples.A; amount := 50; dividend_date := 1 |}] in
  Forall (fun d => (0 <= amount d)%Q) divs
  /\ 1 <= 2 /\ 4 <= 4
  /\ (0 <= HistoryList.positionDividends divs Examples.A 2 4)%Q
  /\ (HistoryList.positionDividends divs Examples.A 2 4
      <= HistoryList.positionDividends divs Examples.A 1 4)%Q.
Proof.
  intros divs.
  assert (Hpos : Forall (fun d => (0 <= amount d)%Q) divs)
    by (repeat constructor; discriminate).
  assert (Hb : 1 <= 2) by discriminate.
  assert (He : 4 <= 4) by discriminate.
  split; [exact Hpos|]. split; [exact Hb|]. split; [exact He|].
  exact (attributed_dividends_monotone divs Examples.A 1 4 2 4 Hpos Hb He).
Defined.

(** ** Closed and disposed quantities *)

Module DisposedFacts.
Import HistoryList HistoryListFacts.

Lemma disposed_quantity_snoc (s : string) (events : list Transaction) (t : Transaction) :
  disposed_quantity s (events ++ [t])
  = disposed_quantity s events + (if is_sell_of s t then quantity t else 0).
Proof.
  unfold disposed_quantity. rewrite List.filter_app. simpl.
  induction (List.filter (is_sell_of s) events) as [|x l IH]; simpl.
  - destruct (is_sell_of s t); simpl; lia.
  - rewrite IH. lia.
Qed.



End DisposedFacts.



(** ** The holdings of the summary *)

Module HoldingFacts.
Import PortfolioSummary.

(** The entry of [s] after the dividends: the same entry, with the amounts
    of the dividends of [s] added, in their order, to its dividends. *)
Lemma lookup_fold_add_dividend (s : string) (divs : list Dividend) (p : Portfolio) :
  lookup_holding s (fold_left add_dividend divs p)
  = (fun h =>
       {| h_quantity := h_quantity h;
          avgPrice := avgPrice h;
          totalInvested := totalInvested h;
          firstPurchaseDate := firstPurchaseDate h;
          totalDividends :=
            fold_left (fun sum d => (sum + amount d)%Q)
              (List.filter (fun d => bool_decide (d_stock_code d = s)) divs)
              (totalDividends h) |})
    <$> lookup_holding s p.
Proof.
  revert p. induction divs as [|d divs IH]; intros p; simpl.
  - destruct (lookup_holding s p) as [[]|]; reflexivity.
  - rewrite IH. unfold add_dividend. rewrite AverageFacts.lookup_alter_holding.
    destruct (bool_decide (d_stock_code d = s)); [|reflexivity].
    destruct (lookup_holding s p) as [h|]; reflexivity.
Qed.

Lemma filter_is_buy_snoc (s : string) (l : list Transaction) (t : Transaction) :
  List.filter (is_buy_of s) (l ++ [t])
  = if is_buy_of s t then List.filter (is_buy_of s) l ++ [t]
    else List.filter (is_buy_of s) l.
Proof.
  rewrite List.filter_app. simpl.
  destruct (is_buy_of s t); [reflexivity|apply app_nil_r].
Qed.

(** The invested total of the entry of [s] is the running sum of the total
    values of its purchases, in the order in which they are walked. *)
Lemma invested_running_sum (s : string) (transactions : list Transaction) :
  totalInvested
    (default new_holding
       (lookup_holding s (fold_left apply_transaction transactions [])))
  = fold_left (fun sum t => (sum + total_value t)%Q)
      (List.filter (is_buy_of s) transactions) 0%Q.
Proof.
  induction transactions as [|t l IH] using rev_ind; [reflexivity|].
  rewrite fold_left_app. simpl.
  rewrite AverageFacts.lookup_apply_transaction, filter_is_buy_snoc.
  assert (Hb : is_buy_of s t
               = bool_decide (stock_code t = s)
                 && match t_type t with buy => true | sell => false end)
    by reflexivity.
  rewrite Hb. clear Hb.
  destruct (bool_decide (stock_code t = s)); simpl; [|exact IH].
  destruct (t_type t); simpl; [|exact IH].
  now rewrite fold_left_app, <- IH.
Qed.

(** What the walk over the transactions keeps true of the entry of [s], the
    fresh entry standing for an absent one. *)
Lemma holding_invariant (s : string) (transactions : list Transaction) :
  let found := lookup_holding s (fold_left apply_transaction transactions []) in
  let h := default new_holding found in
  let buys := List.filter (is_buy_of s) transactions in
  (found = None <-> List.filter (of_stock s) transactions = [])
  /\ h_quantity h = acquired_quantity s transactions - disposed_quantity s transactions
  /\ (totalInvested h == sum_total_value buys)%Q
  /\ totalDividends h = 0%Q
  /\ match firstPurchaseDate h with
     | None => buys = []
     | Some first =>
         In first (map transaction_date buys)
         /\ Forall (fun t => first <= transaction_date t) buys
     end.
Proof.
  induction transactions as [|t l IH] using rev_ind.
  - simpl. repeat split; reflexivity.
  - cbv zeta in *. rewrite fold_left_app. simpl.
    rewrite AverageFacts.lookup_apply_transaction,
      AverageFacts.filter_of_stock_snoc, filter_is_buy_snoc,
      ConservationFacts.acquired_quantity_snoc,
      DisposedFacts.disposed_quantity_snoc.
    assert (Hb : is_buy_of s t
                 = bool_decide (stock_code t = s)
                   && match t_type t with buy => true | sell => false end)
      by reflexivity.
    assert (Hsl : is_sell_of s t
                  = bool_decide (stock_code t = s)
                    && match t_type t with buy => false | sell => true end)
      by reflexivity.
    rewrite Hb, Hsl. clear Hb Hsl.
    destruct (bool_decide_reflect (stock_code t = s)) as [Hs|Hs]; simpl.
    2:{ rewrite !Z.add_0_r. exact IH. }
    destruct IH as (_ & IHq & IHi & IHd & IHf).
    set (h0 := default new_holding
                 (lookup_holding s (fold_left apply_transaction l []))) in *.
    split.
    { split; [discriminate|]. intros E. now apply app_eq_nil in E as [_ E]. }
    destruct (t_type t); simpl.
    + split; [lia|]. split.
      { rewrite AverageFacts.sum_total_value_snoc, IHi. reflexivity. }
      split; [exact IHd|].
      destruct (firstPurchaseDate h0) as [first|].
      * destruct IHf as [Hin Hmin].
        destruct (Z.ltb_spec (transaction_date t) first) as [Hlt|Hge].
        -- split.
           ++ rewrite map_app. apply in_or_app. right. now left.
           ++ apply Forall_app. split; [|repeat constructor; lia].
              eapply List.Forall_impl; [|exact Hmin]. simpl. intros; lia.
        -- split.
           ++ rewrite map_app. apply in_or_app. now left.
           ++ apply Forall_app. split; [exact Hmin|repeat constructor; lia].
      * rewrite IHf. simpl. split; [now left|repeat constructor; lia].
    + split; [lia|]. split; [exact IHi|]. split; [exact IHd|exact IHf].
Qed.

End HoldingFacts.

(** ** The average price, as it is updated *)

(** C2, as the code has it.  [avgPrice] is not recomputed from the lots
    left open.  For transactions whose stock codes are not inherited keys,
    each transaction walked updates the holding of its stock, the holding
    before the first one being of quantity 0 and average price 0: a purchase
    sets the average price to
    [(quantity held × avgPrice + total_value) / (quantity held + quantity bought)]
    and adds the quantity bought to the quantity held; a sale takes the
    quantity sold from the quantity held and leaves the average price as it
    is. *)
Theorem average_price_update (transactions : list Transaction) (t : Transaction)
    (divs : list Dividend) :
  Forall (fun t => own_code t = true) (transactions ++ [t]) ->
  let h :=
    default PortfolioSummary.new_holding
      (PortfolioSummary.lookup_holding (stock_code t)
         (PortfolioSummary.portfolio transactions divs)) in
  exists h' : PortfolioSummary.Holding,
    PortfolioSummary.lookup_holding (stock_code t)
      (PortfolioSummary.portfolio (transactions ++ [t]) divs) = Some h'
    /\ match t_type t with
       | sell =>
           PortfolioSummary.avgPrice h' = PortfolioSummary.avgPrice h
           /\ PortfolioSummary.h_quantity h'
              = PortfolioSummary.h_quantity h - quantity t
       | buy =>
           PortfolioSummary.avgPrice h'
           = ndiv (nadd (nmul (Fin (inject_Z (PortfolioSummary.h_quantity h)))
                              (PortfolioSummary.avgPrice h))
                        (Fin (total_value t)))
                  (Fin (inject_Z (PortfolioSummary.h_quantity h + quantity t)))
           /\ PortfolioSummary.h_quantity h'
              = PortfolioSummary.h_quantity h + quantity t
       end.
Proof.
  intros _ h. unfold h, PortfolioSummary.portfolio.
  rewrite !HoldingFacts.lookup_fold_add_dividend, fold_left_app. simpl.
  rewrite AverageFacts.lookup_apply_transaction, bool_decide_eq_true_2 by reflexivity.
  simpl. eexists. split; [reflexivity|].
  destruct (PortfolioSummary.lookup_holding (stock_code t)
              (fold_left PortfolioSummary.apply_transaction transactions []))
    as [h0|]; destruct (t_type t); simpl; split; reflexivity.
Qed.

(** The sale of 12 after 10 bought at 1 and 10 bought at 2. *)
Lemma average_price_update_witness :
  let first := Examples.acquire Examples.A 10 1 1 in
  let second := Examples.acquire Examples.A 10 2 2 in
  let sale := Examples.dispose Examples.A 12 5 3 in
  let h := default PortfolioSummary.new_holding
             (PortfolioSummary.lookup_holding Examples.A
                (PortfolioSummary.portfolio [first; second] [])) in
  Forall (fun t => own_code t = true) ([first; second] ++ [sale])
  /\ number_eq (PortfolioSummary.avgPrice h) (Fin (3 # 2))
  /\ exists h' : PortfolioSummary.Holding,
       PortfolioSummary.lookup_holding Examples.A
         (PortfolioSummary.portfolio ([first; second] ++ [sale]) []) = Some h'
       /\ PortfolioSummary.avgPrice h' = PortfolioSummary.avgPrice h
       /\ PortfolioSummary.h_quantity h' = 8.
Proof.
  intros first second sale h.
  assert (H1 : Forall (fun t => own_code t = true) ([first; second] ++ [sale]))
    by (repeat constructor).
  split; [exact H1|]. split; [reflexivity|].
  destruct (average_price_update [first; second] sale [] H1) as (h' & Hl & Ha & Hq).
  exists h'. split; [exact Hl|]. split; [exact Ha|]. rewrite Hq. reflexivity.
Defined.

(** C2, as stated, fails.  On 10 bought at 1, 10 bought at 2 and 12 sold,
    walked in this order, the lot left open by FIFO matching is 8 at 2, so
    the recomputed weighted average cost is 2, while [avgPrice] is what the
    two purchases left, 3/2. *)
Lemma average_price_ignores_disposal :
  let transactions :=
    [Examples.acquire Examples.A 10 1 1; Examples.acquire Examples.A 10 2 2;
     Examples.dispose Examples.A 12 5 3] in
  exists h,
    PortfolioSummary.lookup_holding Examples.A
      (PortfolioSummary.portfolio transactions []) = Some h
    /\ PortfolioSummary.h_quantity h = 8
    /\ number_eq (PortfolioSummary.avgPrice h) (Fin (3 # 2))
    /\ (spec_weighted_average_cost
          (HistoryList.queue_of Examples.A
             (HistoryList.final_ledger transactions [])) == 2)%Q
    /\ ~ number_eq (PortfolioSummary.avgPrice h)
           (Fin (spec_weighted_average_cost
                   (HistoryList.queue_of Examples.A
                      (HistoryList.final_ledger transactions [])))).
Proof.
  intros transactions. eexists. split; [reflexivity|].
  repeat split. discriminate.
Qed.

(** ** The entries of the dictionary *)

(** X10. The holding of a stock, for transactions whose stock codes are not
    inherited keys.  The dictionary has an entry for a stock exactly when
    some transaction bears its code.  Whatever the order of the transactions,
    the quantity of the entry is what was bought less what was sold, and its
    invested total is the running sum, from 0, of the total values of the
    purchases in the order in which they are walked; sales do not reduce
    it. *)
Theorem holding_totals (transactions : list Transaction) (divs : list Dividend)
    (s : string) :
  Forall (fun t => own_code t = true) transactions ->
  match PortfolioSummary.lookup_holding s (PortfolioSummary.portfolio transactions divs)
  with
  | None => List.filter (of_stock s) transactions = []
  | Some h =>
      List.filter (of_stock s) transactions <> []
      /\ PortfolioSummary.h_quantity h
         = acquired_quantity s transactions - disposed_quantity s transactions
      /\ PortfolioSummary.totalInvested h
         = fold_left (fun sum t => (sum + total_value t)%Q)
             (List.filter (is_buy_of s) transactions) 0%Q
  end.
Proof.
  intros _.
  unfold PortfolioSummary.portfolio. rewrite HoldingFacts.lookup_fold_add_dividend.
  destruct (HoldingFacts.holding_invariant s transactions) as (Hin & Hq & _).
  pose proof (HoldingFacts.invested_running_sum s transactions) as Hi.
  destruct (PortfolioSummary.lookup_holding s
              (fold_left PortfolioSummary.apply_transaction transactions []))
    as [h|]; simpl in *.
  - split; [|split; assumption]. intros E. apply Hin in E. discriminate.
  - now apply Hin.
Qed.

(** A sale of 4 walked before the purchases of 10 at 1 and 10 at 2. *)
Lemma holding_totals_witness :
  let transactions :=
    [Examples.dispose Examples.A 4 5 3; Examples.acquire Examples.A 10 1 1;
     Examples.acquire Examples.A 10 2 2] in
  Forall (fun t => own_code t = true) transactions
  /\ exists h : PortfolioSummary.Holding,
       PortfolioSummary.lookup_holding Examples.A
         (PortfolioSummary.portfolio transactions []) = Some h
       /\ PortfolioSummary.h_quantity h = 16
       /\ PortfolioSummary.totalInvested h = (0 + 10 + 20)%Q.
Proof.
  intros transactions.
  assert (Hown : Forall (fun t => own_code t = true) transactions)
    by (repeat constructor).
  split; [exact Hown|].
  pose proof (holding_totals transactions [] Examples.A Hown) as H.
  destruct (PortfolioSummary.lookup_holding Examples.A
              (PortfolioSummary.portfolio transactions [])) as [h|].
  - destruct H as (_ & Hq & Hi). exists h. split; [reflexivity|].
    split; [rewrite Hq; reflexivity|rewrite Hi; reflexivity].
  - discriminate H.
Defined.

(** X11. The dividends of a stock.  The dividends of an entry are the sum of the
    amounts of all the dividends bearing its stock code, whatever their
    dates; a dividend of a stock without any transaction is dropped, as the
    dictionary gets no entry for it. *)
Theorem holding_dividends (transactions : list Transaction) (divs : list Dividend)
    (s : string) :
  match PortfolioSummary.lookup_holding s (PortfolioSummary.portfolio transactions divs)
  with
  | None =>
      PortfolioSummary.lookup_holding s (PortfolioSummary.portfolio transactions [])
      = None
  | Some h =>
      PortfolioSummary.totalDividends h
      = HistoryList.sum_amounts
          (List.filter (fun d => bool_decide (d_stock_code d = s)) divs)
  end
  /\ map fst (PortfolioSummary.portfolio transactions divs)
     = map fst (PortfolioSummary.portfolio transactions []).
Proof.
  split.
  - unfold PortfolioSummary.portfolio. rewrite HoldingFacts.lookup_fold_add_dividend.
    destruct (HoldingFacts.holding_invariant s transactions) as (_ & _ & _ & Hd & _).
    simpl. destruct (PortfolioSummary.lookup_holding s
                       (fold_left PortfolioSummary.apply_transaction transactions []))
      as [h|]; simpl in *; [|reflexivity].
    rewrite Hd. reflexivity.
  - unfold PortfolioSummary.portfolio. simpl.
    generalize (fold_left PortfolioSummary.apply_transaction transactions []).
    induction divs as [|d divs IH]; intros p; simpl; [reflexivity|].
    rewrite IH. unfold PortfolioSummary.add_dividend.
    induction p as [|[k h] p IHp]; simpl; [reflexivity|].
    destruct (bool_decide (k = d_stock_code d)); simpl; [reflexivity|].
    now rewrite IHp.
Qed.

(** X12. The first purchase.  The first purchase date of an entry is the earliest
    date among the purchases of the stock, in whatever order they are
    walked, and it is absent only when the stock was never bought; sales
    never move it. *)
Theorem first_purchase_earliest (transactions : list Transaction)
    (divs : list Dividend) (s : string) (h : PortfolioSummary.Holding) :
  PortfolioSummary.lookup_holding s (PortfolioSummary.portfolio transactions divs)
  = Some h ->
  match PortfolioSummary.firstPurchaseDate h with
  | None => List.filter (is_buy_of s) transactions = []
  | Some first =>
      In first (map transaction_date (List.filter (is_buy_of s) transactions))
      /\ Forall (fun t => first <= transaction_date t)
           (List.filter (is_buy_of s) transactions)
  end.
Proof.
  unfold PortfolioSummary.portfolio. rewrite HoldingFacts.lookup_fold_add_dividend.
  destruct (HoldingFacts.holding_invariant s transactions) as (_ & _ & _ & _ & Hf).
  destruct (PortfolioSummary.lookup_holding s
              (fold_left PortfolioSummary.apply_transaction transactions []))
    as [h0|]; simpl in *; [|discriminate].
  intros [= <-]. exact Hf.
Qed.

Lemma first_purchase_earliest_witness :
  let transactions :=
    [Examples.acquire Examples.A 10 2 5; Examples.dispose Examples.A 10 3 9;
     Examples.acquire Examples.A 10 1 2] in
  exists h,
    PortfolioSummary.lookup_holding Examples.A
      (PortfolioSummary.portfolio transactions []) = Some h
    /\ PortfolioSummary.firstPurchaseDate h = Some 2
    /\ match PortfolioSummary.firstPurchaseDate h with
       | None => List.filter (is_buy_of Examples.A) transactions = []
       | Some first =>
           In first (map transaction_date
                       (List.filter (is_buy_of Examples.A) transactions))
           /\ Forall (fun t => first <= transaction_date t)
                (List.filter (is_buy_of Examples.A) transactions)
       end.
Proof.
  intros transactions. eexists.
  split; [reflexivity|]. split; [reflexivity|].
  exact (first_purchase_earliest transactions [] Examples.A _ eq_refl).
Defined.



(** ** Prices *)

Module PriceFacts.
Import PortfolioSummary.

(** A dictionary that gives the same value to every active stock. *)
Lemma lookup_marked (v : StockData) (active : Portfolio) (code : string) :
  let prices :=
    fold_left (fun (prices : gmap string StockData) (e : string * Holding) =>
                 <[fst e := v]> prices) active ∅ in
  (In code (map fst active) -> prices !! code = Some v)
  /\ (~ In code (map fst active) -> prices !! code = None).
Proof.
  induction active as [|e active [IHin IHout]] using rev_ind; cbv zeta in *.
  - simpl. split; [contradiction|reflexivity].
  - rewrite fold_left_app, map_app. simpl. rewrite lookup_insert.
    destruct (decide (fst e = code)) as [<-|Hne].
    + split; [reflexivity|]. intros H. exfalso. apply H.
      apply in_or_app. right. now left.
    + split; intros H.
      * apply IHin. apply in_app_or in H as [H|[H|[]]]; [exact H|contradiction].
      * apply IHout. intros Hin. apply H. apply in_or_app. now left.
Qed.

Lemma lookup_updatedPrices (results : list Quote) (code : string) :
  match updatedPrices results !! code with
  | None => ~ In code (map symbol results)
  | Some price =>
      loading price = false
      /\ exists q, In q results /\ symbol q = code
                   /\ currentPrice price = default 0%Q (regularMarketPrice q)
  end.
Proof.
  unfold updatedPrices.
  induction results as [|q results IH] using rev_ind.
  { simpl. rewrite lookup_empty. tauto. }
  rewrite fold_left_app. simpl. rewrite lookup_insert.
  destruct (decide (symbol q = code)) as [Hq|Hq].
  - split; [reflexivity|]. exists q. split; [|auto]. apply in_or_app. right. now left.
  - destruct (fold_left _ results ∅ !! code) as [price|].
    + destruct IH as (Hl & q' & Hin & Hs & Hp). split; [exact Hl|].
      exists q'. split; [|auto]. apply in_or_app. now left.
    + rewrite map_app. intros H. apply in_app_or in H as [H|[H|[]]]; auto.
Qed.

(** The current value, one stock at a time. *)
Lemma totalCurrentValue_cons (stockPrices : gmap string StockData)
    (e : string * Holding) (active : Portfolio) :
  (totalCurrentValue stockPrices (e :: active)
   == (if pending stockPrices (fst e) then 0
       else calculateCurrentValue (h_quantity (snd e))
              (rowCurrentPrice stockPrices (fst e))
            + totalDividends (snd e))
      + totalCurrentValue stockPrices active)%Q.
Proof.
  unfold totalCurrentValue.
  set (f := fun (sum : Q) (e : string * Holding) =>
              let '(code, data) := e in
              match stockPrices !! code with
              | None => sum
              | Some stockPrice =>
                  if loading stockPrice then sum
                  else (sum + calculateCurrentValue (h_quantity data)
                                (currentPrice stockPrice)
                        + totalDividends data)%Q
              end).
  assert (Hstep : forall (x : string * Holding) (acc : Q),
             (f acc x
              == acc + (if pending stockPrices (fst x) then 0
                        else calculateCurrentValue (h_quantity (snd x))
                               (rowCurrentPrice stockPrices (fst x))
                             + totalDividends (snd x)))%Q).
  { intros [code data] acc. unfold f, pending, rowCurrentPrice. simpl.
    destruct (stockPrices !! code) as [sp|]; [|ring].
    destruct (loading sp); ring. }
  assert (Hacc : forall (l : Portfolio) (acc : Q),
             (fold_left f l acc == acc + fold_left f l 0)%Q).
  { induction l as [|x l IH]; intros acc; simpl; [ring|].
    rewrite (IH (f acc x)), (IH (f 0%Q x)), !Hstep. ring. }
  simpl. rewrite Hacc, Hstep. ring.
Qed.

Lemma allPricesLoaded_iff (stockPrices : gmap string StockData) (active : Portfolio) :
  allPricesLoaded stockPrices active = true
  <-> Forall (fun e => pending stockPrices (fst e) = false) active.
Proof.
  unfold allPricesLoaded. rewrite forallb_forall, List.Forall_forall.
  split; intros H e Hin; specialize (H e Hin); unfold pending in *;
    destruct (stockPrices !! fst e) as [sp|]; try discriminate;
    now destruct (loading sp).
Qed.

End PriceFacts.

(** X14. When the totals are shown.  The active stocks are entries of the
    dictionary, and so bear codes that are not inherited keys.  The current
    value and the return of the portfolio are shown only when
    [allPricesLoaded] holds, that is when no active stock is pending.  The current value is then the running sum, from
    0 and over every active stock in order, of its quantity at the price of
    its row and then of its dividends: it skips no stock, as the invested
    total, which is the running sum of [totalInvested] over the same
    stocks. *)
Theorem totals_shown_when_loaded (stockPrices : gmap string PortfolioSummary.StockData)
    (active : PortfolioSummary.Portfolio) :
  Forall (fun e => ObjectKeys.inherited (fst e) = false) active ->
  (PortfolioSummary.allPricesLoaded stockPrices active = true
   <-> Forall (fun e => PortfolioSummary.pending stockPrices (fst e) = false) active)
  /\ (PortfolioSummary.allPricesLoaded stockPrices active = true ->
      PortfolioSummary.totalCurrentValue stockPrices active
      = fold_left
          (fun sum e =>
             (sum
              + PortfolioSummary.calculateCurrentValue
                  (PortfolioSummary.h_quantity (snd e))
                  (PortfolioSummary.rowCurrentPrice stockPrices (fst e))
              + PortfolioSummary.totalDividends (snd e))%Q)
          active 0%Q)
  /\ PortfolioSummary.totalPortfolioInvested active
     = fold_left (fun sum e => (sum + PortfolioSummary.totalInvested (snd e))%Q)
         active 0%Q.
Proof.
  intros _.
  split; [apply PriceFacts.allPricesLoaded_iff|]. split; [|reflexivity].
  intros H. apply PriceFacts.allPricesLoaded_iff in H.
  unfold PortfolioSummary.totalCurrentValue. generalize 0%Q as sum.
  induction H as [|[code data] active He _ IH]; intros sum; simpl; [reflexivity|].
  unfold PortfolioSummary.pending in He. simpl in He.
  unfold PortfolioSummary.rowCurrentPrice at 2.
  destruct (stockPrices !! code) as [sp|]; [|discriminate].
  rewrite He. apply IH.
Qed.

(** Ten shares of [A] with 3 of dividends, quoted 12. *)
Lemma totals_shown_when_loaded_witness :
  let active :=
    PortfolioSummary.activeStocks
      (PortfolioSummary.portfolio [Examples.acquire Examples.A 10 10 1]
         [{| d_stock_code := Examples.A; amount := 3; dividend_date := 2 |}]) in
  let stockPrices : gmap string PortfolioSummary.StockData :=
    <[Examples.A := {| PortfolioSummary.currentPrice := 12;
                       PortfolioSummary.loading := false |}]> ∅ in
  Forall (fun e => ObjectKeys.inherited (fst e) = false) active
  /\ PortfolioSummary.allPricesLoaded stockPrices active = true
  /\ (PortfolioSummary.totalCurrentValue stockPrices active == 0 + 120 + 3)%Q.
Proof.
  intros active stockPrices.
  assert (H0 : Forall (fun e => ObjectKeys.inherited (fst e) = false) active)
    by (repeat constructor).
  assert (H : PortfolioSummary.allPricesLoaded stockPrices active = true)
    by reflexivity.
  split; [exact H0|]. split; [exact H|].
  rewrite (proj1 (proj2 (totals_shown_when_loaded stockPrices active H0)) H).
  reflexivity.
Defined.

(** X15. A failed request.  When the request for the quotes fails, every active
    stock gets the price 0 and is no longer loading: the totals are shown,
    every row shows a return of 0, and the current value of the portfolio is
    the sum of the dividends of the active stocks. *)
Theorem failed_fetch_prices_at_zero (active : PortfolioSummary.Portfolio)
    (stockPrices : gmap string PortfolioSummary.StockData) :
  active <> [] ->
  let prices := PortfolioSummary.fetchPrices active PortfolioSummary.Failed stockPrices in
  PortfolioSummary.allPricesLoaded prices active = true
  /\ Forall
       (fun e =>
          PortfolioSummary.rowCurrentPrice prices (fst e) = 0%Q
          /\ PortfolioSummary.rowReturnPercent prices e = Fin 0)
       active
  /\ (PortfolioSummary.totalCurrentValue prices active
      == fold_right (fun e acc => PortfolioSummary.totalDividends (snd e) + acc) 0 active)%Q.
Proof.
  intros Hne prices.
  assert (Hprices : prices = PortfolioSummary.errorPrices active).
  { unfold prices, PortfolioSummary.fetchPrices. destruct active; [contradiction|].
    reflexivity. }
  clearbody prices. subst prices.
  assert (Hlook : forall code, In code (map fst active) ->
             PortfolioSummary.errorPrices active !! code
             = Some {| PortfolioSummary.currentPrice := 0;
                       PortfolioSummary.loading := false |}).
  { intros code Hin. unfold PortfolioSummary.errorPrices.
    now apply PriceFacts.lookup_marked. }
  clear Hne. generalize dependent (PortfolioSummary.errorPrices active).
  intros prices Hlook.
  assert (Hall : Forall (fun e => prices !! fst e
                                  = Some {| PortfolioSummary.currentPrice := 0;
                                            PortfolioSummary.loading := false |})
                   active).
  { apply List.Forall_forall. intros e Hin. apply Hlook. now apply in_map. }
  clear Hlook. split; [|split].
  - apply PriceFacts.allPricesLoaded_iff.
    eapply List.Forall_impl; [|exact Hall]. intros e He.
    unfold PortfolioSummary.pending. now rewrite He.
  - eapply List.Forall_impl; [|exact Hall]. intros e He.
    unfold PortfolioSummary.rowReturnPercent, PortfolioSummary.rowCurrentPrice.
    rewrite He. split; reflexivity.
  - induction Hall as [|e active He _ IH]; [reflexivity|].
    rewrite PriceFacts.totalCurrentValue_cons, IH. simpl.
    unfold PortfolioSummary.pending, PortfolioSummary.rowCurrentPrice,
      PortfolioSummary.calculateCurrentValue.
    rewrite He. simpl. ring.
Qed.

Lemma failed_fetch_prices_at_zero_witness :
  let active :=
    PortfolioSummary.activeStocks
      (PortfolioSummary.portfolio [Examples.acquire Examples.A 10 10 1]
         [{| d_stock_code := Examples.A; amount := 7; dividend_date := 3 |}]) in
  let prices := PortfolioSummary.fetchPrices active PortfolioSummary.Failed ∅ in
  active <> []
  /\ PortfolioSummary.allPricesLoaded prices active = true
  /\ (PortfolioSummary.totalCurrentValue prices active == 7)%Q.
Proof.
  intros active prices.
  assert (Hne : active <> []) by discriminate.
  split; [exact Hne|].
  destruct (failed_fetch_prices_at_zero active ∅ Hne) as (Hl & _ & Hv).
  split; [exact Hl|]. eapply Qeq_trans; [exact Hv|reflexivity].
Defined.

(** X16. Quotes by symbol.  When the quotes come back, the dictionary of prices
    is rebuilt from them alone: a stock is no longer pending exactly when a
    quote bears its code as symbol, its price is then the price of such a
    quote, 0 when the quote has none, and the totals are shown exactly when
    every active stock has a quote. *)
Theorem quotes_resolve_by_symbol (active : PortfolioSummary.Portfolio)
    (results : list PortfolioSummary.Quote)
    (stockPrices : gmap string PortfolioSummary.StockData) :
  active <> [] ->
  let prices :=
    PortfolioSummary.fetchPrices active (PortfolioSummary.Results results) stockPrices in
  (forall code,
     PortfolioSummary.pending prices code = false
     <-> In code (map PortfolioSummary.symbol results))
  /\ (forall code,
        In code (map PortfolioSummary.symbol results) ->
        exists q, In q results /\ PortfolioSummary.symbol q = code
                  /\ PortfolioSummary.rowCurrentPrice prices code
                     = default 0%Q (PortfolioSummary.regularMarketPrice q))
  /\ (PortfolioSummary.allPricesLoaded prices active = true
      <-> Forall (fun e => In (fst e) (map PortfolioSummary.symbol results)) active).
Proof.
  intros Hne prices.
  assert (Hprices : prices = PortfolioSummary.updatedPrices results).
  { unfold prices, PortfolioSummary.fetchPrices. destruct active; [contradiction|].
    reflexivity. }
  clearbody prices. subst prices.
  assert (Hpending : forall code,
             PortfolioSummary.pending (PortfolioSummary.updatedPrices results) code
             = false
             <-> In code (map PortfolioSummary.symbol results)).
  { intros code. unfold PortfolioSummary.pending.
    pose proof (PriceFacts.lookup_updatedPrices results code) as H.
    destruct (PortfolioSummary.updatedPrices results !! code) as [price|].
    - destruct H as (Hl & q & Hin & Hs & _). rewrite Hl. split; [|reflexivity].
      intros _. subst code. now apply in_map.
    - split; [discriminate|contradiction]. }
  split; [exact Hpending|]. split.
  - intros code Hin. unfold PortfolioSummary.rowCurrentPrice.
    pose proof (PriceFacts.lookup_updatedPrices results code) as H.
    destruct (PortfolioSummary.updatedPrices results !! code) as [price|];
      [|contradiction].
    destruct H as (_ & q & Hq & Hs & Hp). eauto.
  - rewrite PriceFacts.allPricesLoaded_iff. split; intros H;
      (eapply List.Forall_impl; [|exact H]); intros e He; now apply Hpending.
Qed.

Lemma quotes_resolve_by_symbol_witness :
  let active :=
    PortfolioSummary.activeStocks
      (PortfolioSummary.portfolio
         [Examples.acquire Examples.A 10 10 1; Examples.acquire Examples.B 10 20 2] []) in
  let results := [{| PortfolioSummary.symbol := Examples.A;
                     PortfolioSummary.regularMarketPrice := Some 12%Q |}] in
  let prices :=
    PortfolioSummary.fetchPrices active (PortfolioSummary.Results results) ∅ in
  active <> []
  /\ PortfolioSummary.pending prices Examples.A = false
  /\ PortfolioSummary.pending prices Examples.B = true
  /\ PortfolioSummary.allPricesLoaded prices active = false.
Proof.
  intros active results prices.
  assert (Hne : active <> []) by discriminate.
  split; [exact Hne|].
  destruct (quotes_resolve_by_symbol active results ∅ Hne) as (Hp & _ & _).
  split; [apply Hp; now left|]. split; reflexivity.
Defined.

(** X17. While the quotes are awaited.  In the dictionary set before the request
    (and kept when the answer has no results) every active stock is loading:
    the totals are not shown and the current value sums nothing. *)
Theorem awaiting_quotes_all_pending (active : PortfolioSummary.Portfolio)
    (stockPrices : gmap string PortfolioSummary.StockData) :
  active <> [] ->
  let prices :=
    PortfolioSummary.fetchPrices active PortfolioSummary.NoResults stockPrices in
  prices = PortfolioSummary.newPrices active
  /\ Forall (fun e => PortfolioSummary.pending prices (fst e) = true) active
  /\ PortfolioSummary.allPricesLoaded prices active = false
  /\ PortfolioSummary.totalCurrentValue prices active = 0%Q.
Proof.
  intros Hne prices.
  assert (Hprices : prices = PortfolioSummary.newPrices active).
  { unfold prices, PortfolioSummary.fetchPrices. destruct active; [contradiction|].
    reflexivity. }
  clearbody prices. subst prices. split; [reflexivity|].
  assert (Hall : Forall (fun e => PortfolioSummary.pending
                                    (PortfolioSummary.newPrices active) (fst e) = true)
                   active).
  { apply List.Forall_forall. intros e Hin.
    unfold PortfolioSummary.pending, PortfolioSummary.newPrices.
    rewrite (proj1 (PriceFacts.lookup_marked _ active (fst e)));
      [reflexivity|now apply in_map]. }
  split; [exact Hall|]. split.
  - destruct (PortfolioSummary.allPricesLoaded _ active) eqn:E; [|reflexivity].
    apply PriceFacts.allPricesLoaded_iff in E.
    destruct active as [|e rest]; [contradiction|].
    inversion Hall as [|? ? H1 _]; inversion E as [|? ? H2 _]; subst.
    rewrite H1 in H2. discriminate.
  - rewrite TotalFacts.totalCurrentValue_resolved.
    replace (List.filter (resolved _) active) with (@nil (string * PortfolioSummary.Holding));
      [reflexivity|].
    clear Hne. revert Hall. generalize (PortfolioSummary.newPrices active).
    intros prices Hall. induction Hall as [|e rest He _ IH]; [reflexivity|].
    simpl. unfold resolved at 1. rewrite He. exact IH.
Qed.

Lemma awaiting_quotes_all_pending_witness :
  let active :=
    PortfolioSummary.activeStocks
      (PortfolioSummary.portfolio [Examples.acquire Examples.A 10 10 1] []) in
  let prices := PortfolioSummary.fetchPrices active PortfolioSummary.NoResults ∅ in
  active <> []
  /\ PortfolioSummary.allPricesLoaded prices active = false
  /\ PortfolioSummary.totalCurrentValue prices active = 0%Q.
Proof.
  intros active prices.
  assert (Hne : active <> []) by discriminate.
  split; [exact Hne|].
  destruct (awaiting_quotes_all_pending active ∅ Hne) as (_ & _ & Hl & Hv).
  split; assumption.
Defined.

(** ** Rows of the summary *)

(** X18. Return and result of a row.  For a stock of finite average price and
    positive acquisition value [avgPrice × quantity], the result in reais is
    [quantity × price + dividends - quantity × avgPrice].  With a price that
    is not 0 the return percent is that result over the acquisition value,
    times 100, and both have the same sign; with the price 0 the return is 0
    whatever the result is. *)
Theorem return_agrees_with_result (avgPrice currentPrice dividends : Q) (quantity : Z) :
  (0 < avgPrice * inject_Z quantity)%Q ->
  let result := (inject_Z quantity * currentPrice + dividends
                 - inject_Z quantity * avgPrice)%Q in
  PortfolioSummary.calculateResultInReais quantity (Fin avgPrice) currentPrice dividends
  = Fin result
  /\ (~ (currentPrice == 0)%Q ->
      exists p,
        PortfolioSummary.calculateReturn (Fin avgPrice) currentPrice dividends quantity
        = Fin p
        /\ (p == result / (avgPrice * inject_Z quantity) * 100)%Q
        /\ ((0 <= p)%Q <-> (0 <= result)%Q))
  /\ ((currentPrice == 0)%Q ->
      PortfolioSummary.calculateReturn (Fin avgPrice) currentPrice dividends quantity
      = Fin 0).
Proof.
  intros Hacq result. split; [reflexivity|]. split.
  - intros Hprice. unfold PortfolioSummary.calculateReturn.
    destruct (Qeq_bool currentPrice 0) eqn:E.
    { apply Qeq_bool_iff in E. contradiction. }
    simpl. destruct (Qeq_bool (avgPrice * inject_Z quantity) 0) eqn:E0.
    { apply Qeq_bool_iff in E0. rewrite E0 in Hacq. now apply Qlt_irrefl in Hacq. }
    eexists. split; [reflexivity|].
    set (t := (avgPrice * inject_Z quantity)%Q) in *.
    assert (Hres : (currentPrice * inject_Z quantity + dividends + - t == result)%Q).
    { unfold result, t. ring. }
    assert (Ht : ~ (t == 0)%Q).
    { intros Ez. rewrite Ez in Hacq. now apply Qlt_irrefl in Hacq. }
    split.
    + rewrite Hres. reflexivity.
    + rewrite Hres.
      assert (Hp : (result / t * 100 * t == result * 100)%Q) by (field; exact Ht).
      split; intros H.
      * assert (0 <= result / t * 100 * t)%Q
          by (apply Qmult_le_0_compat; [exact H|now apply Qlt_le_weak]).
        rewrite Hp in H0. lra.
      * assert (0 <= result * 100 * / t)%Q.
        { apply Qmult_le_0_compat; [lra|].
          apply Qlt_le_weak, Qinv_lt_0_compat. exact Hacq. }
        assert (Hq : (result / t * 100 == result * 100 * / t)%Q) by (field; exact Ht).
        now rewrite Hq.
  - intros Hprice. unfold PortfolioSummary.calculateReturn.
    apply Qeq_bool_iff in Hprice. now rewrite Hprice.
Qed.

Lemma return_agrees_with_result_witness :
  (0 < 10 * inject_Z 10)%Q
  /\ PortfolioSummary.calculateResultInReais 10 (Fin 10) 13 5 = Fin (10 * 13 + 5 - 10 * 10)%Q
  /\ PortfolioSummary.calculateReturn (Fin 10) 0 5 10 = Fin 0.
Proof.
  assert (Hacq : (0 < 10 * inject_Z 10)%Q) by reflexivity.
  split; [exact Hacq|].
  split.
  - exact (proj1 (return_agrees_with_result 10 13 5 10 Hacq)).
  - exact (proj2 (proj2 (return_agrees_with_result 10 0 5 10 Hacq)) eq_refl).
Defined.

Module DayFacts.

Lemma ceil_div_first_day (x : Z) :
  0 < x <= ms_per_day -> ceil_div x ms_per_day = 1.
Proof.
  intros Hx. unfold ceil_div.
  assert (Hd : 0 < ms_per_day) by reflexivity.
  pose proof (Z.div_mod (- x) ms_per_day ltac:(lia)) as Hdm.
  pose proof (Z.mod_pos_bound (- x) ms_per_day Hd) as Hm.
  nia.
Qed.

End DayFacts.

(** X20. The first day.  A position that is not a day old has one elapsed
    day, that is a thirtieth of a month, and its monthly return is its return
    divided by [1 / 30]: an open position bought within the last day (or
    dated within the next day), and a closed position sold within a day of
    its purchase, such as ten shares sold an hour after they were bought. *)
Theorem monthly_return_first_day (transactions : list Transaction)
    (divs : list Dividend) (now first : Z) (currentReturn : number) :
  0 < Z.abs (now - first) <= ms_per_day ->
  PortfolioSummary.calculateMonthlyReturn now (Some first) currentReturn
  = ndiv currentReturn (Fin (inject_Z 1 / 30))
  /\ (forall cps : list HistoryList.ClosedPosition,
        HistoryListFull.calculateClosedPositions transactions divs
        = HistoryListFull.Returns cps ->
        Forall
          (fun cp =>
             0 < HistoryList.sellDate cp - HistoryList.buyDate cp <= ms_per_day ->
             HistoryList.days cp = 1
             /\ HistoryList.monthlyReturn cp
                = ndiv (HistoryList.returnPercent cp) (Fin (inject_Z 1 / 30)))
          cps)
  /\ (exists cp : HistoryList.ClosedPosition,
        HistoryListFull.calculateClosedPositions
          [Examples.acquire Examples.A 10 10 0;
           Examples.dispose Examples.A 10 13 3600000] []
        = HistoryListFull.Returns [cp]
        /\ HistoryList.days cp = 1
        /\ HistoryList.monthlyReturn cp
           = ndiv (HistoryList.returnPercent cp) (Fin (inject_Z 1 / 30))).
Proof.
  intros Hspan. split; [|split].
  - unfold PortfolioSummary.calculateMonthlyReturn.
    rewrite (DayFacts.ceil_div_first_day _ Hspan). reflexivity.
  - intros cps Hcps.
    apply (FullFacts.returned_Forall _ transactions divs); [|exact Hcps].
    intros stock sellDate price lot m. simpl. intros Hday.
    rewrite (DayFacts.ceil_div_first_day _ Hday).
    split; reflexivity.
  - eexists. split; [reflexivity|]. split; reflexivity.
Qed.

(** A return of 2% on a position bought an hour ago. *)
Lemma monthly_return_first_day_witness :
  0 < Z.abs (3600000 - 0) <= ms_per_day
  /\ PortfolioSummary.calculateMonthlyReturn 3600000 (Some 0) (Fin 2)
     = ndiv (Fin 2) (Fin (inject_Z 1 / 30))
  /\ number_eq (ndiv (Fin 2) (Fin (inject_Z 1 / 30))) (Fin 60).
Proof.
  assert (Hspan : 0 < Z.abs (3600000 - 0) <= ms_per_day)
    by (split; [reflexivity|discriminate]).
  split; [exact Hspan|]. split; [|reflexivity].
  exact (proj1 (monthly_return_first_day [] [] 3600000 0 (Fin 2) Hspan)).
Defined.

(** ** The lists of purchases and of sales *)

(** X21. The two lists of [TransactionList], the purchases and the sales, hold
    together every transaction exactly once, each list in the order of the
    transactions supplied, and nothing of the other type. *)
Theorem transaction_lists_partition (transactions : list Transaction) :
  Permutation
    (TransactionList.filteredTransactions transactions buy
     ++ TransactionList.filteredTransactions transactions sell)
    transactions
  /\ (length (TransactionList.filteredTransactions transactions buy)
      + length (TransactionList.filteredTransactions transactions sell)
      = length transactions)%nat
  /\ Forall (fun t => t_type t = buy)
       (TransactionList.filteredTransactions transactions buy)
  /\ Forall (fun t => t_type t = sell)
       (TransactionList.filteredTransactions transactions sell).
Proof.
  unfold TransactionList.filteredTransactions.
  induction transactions as [|t l (IHp & IHl & IHb & IHs)]; simpl.
  - repeat split; constructor.
  - destruct (t_type t) eqn:Hty; simpl.
    + repeat split; [now apply perm_skip|lia|now constructor|assumption].
    + repeat split; [|lia|assumption|now constructor].
      rewrite <- Permutation_middle. now apply perm_skip.
Qed.

(** ** Where closed positions come from *)

Module ProvenanceFacts.
Import HistoryList HistoryListFacts.

Section SaleProvenance.
Variables (divs : list Dividend) (stock : string) (sellDate : Z)
          (sellPricePerShare : Q).
Variables (L : Z -> Q -> Prop) (C : ClosedPosition -> Prop).

Abbreviation all := (sell_all divs stock sellDate sellPricePerShare).

(** A property of the date and price of the lots passes to the lots left
    and, through [make_closed], to the positions closed. *)
Hypothesis emit_ok :
  forall lot m, L (lot_date lot) (lot_price lot) ->
                C (make_closed divs stock sellDate sellPricePerShare lot m).

Lemma sell_all_from_lots (q : list Lot) (r : Z) (c : list ClosedPosition) :
  Forall (fun l => L (lot_date l) (lot_price l)) q ->
  Forall C c ->
  let st := all {| queue := q; remainingSell := r; closedPositions := c |} in
  Forall (fun l => L (lot_date l) (lot_price l)) (queue st)
  /\ Forall C (closedPositions st).
Proof.
  intros Hq. revert r c. induction Hq as [|lot rest Hlot Hrest IH]; intros r c Hc.
  - cbv zeta. rewrite sell_all_nil. split; [constructor|exact Hc].
  - cbv zeta. rewrite sell_all_cons.
    destruct (0 <? r); [|split; [now constructor|exact Hc]]. cbv zeta.
    assert (Hnew : Forall C (c ++ [make_closed divs stock sellDate sellPricePerShare
                                     lot (Z.min r (lot_quantity lot))])).
    { apply Forall_app. split; [exact Hc|]. repeat constructor. now apply emit_ok. }
    destruct (_ =? 0); [now apply IH|].
    split; [now constructor|exact Hnew].
Qed.
End SaleProvenance.

Lemma bought_in_snoc (events : list Transaction) (t : Transaction) (s : string)
    (d : Z) (p : Q) :
  bought_in events s d p -> bought_in (events ++ [t]) s d p.
Proof.
  intros (b & Hin & H). exists b. split; [|exact H]. apply in_or_app. now left.
Qed.

Lemma paired_in_snoc (events : list Transaction) (t : Transaction)
    (cp : ClosedPosition) :
  paired_in events cp -> paired_in (events ++ [t]) cp.
Proof.
  intros [Hb (sl & Hin & H)]. split; [now apply bought_in_snoc|].
  exists sl. split; [|exact H]. apply in_or_app. now left.
Qed.

Lemma run_provenance (divs : list Dividend) (events : list Transaction) :
  (forall s, Forall (fun l => bought_in events s (lot_date l) (lot_price l))
               (queue_of s (run divs events)))
  /\ Forall (paired_in events) (closed (run divs events)).
Proof.
  induction events as [|t events [IHq IHc]] using rev_ind.
  - split; [intros s|]; constructor.
  - rewrite ConservationFacts.run_snoc.
    assert (IHq' : forall s,
               Forall (fun l => bought_in (events ++ [t]) s (lot_date l) (lot_price l))
                 (queue_of s (run divs events))).
    { intros s. eapply List.Forall_impl; [|apply IHq].
      intros l. apply bought_in_snoc. }
    assert (IHc' : Forall (paired_in (events ++ [t])) (closed (run divs events))).
    { eapply List.Forall_impl; [|exact IHc]. intros cp. apply paired_in_snoc. }
    destruct (t_type t) eqn:Hty.
    + split; [|now rewrite closed_process_buy].
      intros s. destruct (decide (stock_code t = s)) as [<-|Hs].
      * rewrite queue_of_process_buy by assumption.
        apply Forall_app. split; [apply IHq'|]. repeat constructor.
        exists t. split; [apply in_or_app; right; now left|]. auto.
      * rewrite queue_of_process_other by assumption. apply IHq'.
    + destruct (sell_all_from_lots divs (stock_code t) (transaction_date t)
                  (price_per_share t)
                  (bought_in (events ++ [t]) (stock_code t))
                  (paired_in (events ++ [t])))
        with (q := queue_of (stock_code t) (run divs events)) (r := quantity t)
             (c := closed (run divs events)) as [Hq Hc].
      * intros lot m Hlot. split; [exact Hlot|].
        exists t. split; [apply in_or_app; right; now left|]. auto.
      * apply IHq'.
      * exact IHc'.
      * split; [|now rewrite closed_process_sell].
        intros s. destruct (decide (stock_code t = s)) as [<-|Hs].
        -- now rewrite queue_of_process_sell.
        -- rewrite queue_of_process_other by assumption. apply IHq'.
Qed.

End ProvenanceFacts.

(** X22. Every closed position pairs a purchase and a sale of the transactions
    supplied, of the same stock: its purchase date and price are those of
    the purchase, its sale date and price those of the sale.  Without a sale
    there is no closed position. *)
Theorem closed_positions_provenance (transactions : list Transaction)
    (divs : list Dividend) :
  Forall
    (fun cp =>
       (exists b, In b transactions /\ t_type b = buy
                  /\ stock_code b = HistoryList.cp_stock_code cp
                  /\ transaction_date b = HistoryList.buyDate cp
                  /\ price_per_share b = HistoryList.buyPrice cp)
       /\ (exists sl, In sl transactions /\ t_type sl = sell
                      /\ stock_code sl = HistoryList.cp_stock_code cp
                      /\ transaction_date sl = HistoryList.sellDate cp
                      /\ price_per_share sl = HistoryList.sellPrice cp))
    (HistoryList.calculateClosedPositions transactions divs)
  /\ (Forall (fun t => t_type t = buy) transactions ->
      HistoryList.calculateClosedPositions transactions divs = []).
Proof.
  assert (Hprov :
            Forall
              (fun cp =>
                 (exists b, In b transactions /\ t_type b = buy
                            /\ stock_code b = HistoryList.cp_stock_code cp
                            /\ transaction_date b = HistoryList.buyDate cp
                            /\ price_per_share b = HistoryList.buyPrice cp)
                 /\ (exists sl, In sl transactions /\ t_type sl = sell
                                /\ stock_code sl = HistoryList.cp_stock_code cp
                                /\ transaction_date sl = HistoryList.sellDate cp
                                /\ price_per_share sl = HistoryList.sellPrice cp))
              (HistoryList.calculateClosedPositions transactions divs)).
  { apply js_sort_Forall. unfold HistoryList.final_ledger.
    eapply List.Forall_impl;
      [|apply (ProvenanceFacts.run_provenance divs
                 (HistoryList.sortedTransactions transactions))].
    assert (Hin : forall t, In t (HistoryList.sortedTransactions transactions) ->
                            In t transactions).
    { intros t. apply Permutation_in, js_sort_perm. }
    intros cp [(b & Hb & Hrest) (sl & Hs & Hrest')]. split.
    - exists b. split; [now apply Hin|exact Hrest].
    - exists sl. split; [now apply Hin|exact Hrest']. }
  split; [exact Hprov|].
  intros Hbuys.
  destruct (HistoryList.calculateClosedPositions transactions divs) as [|cp l];
    [reflexivity|].
  inversion Hprov as [|? ? [_ (sl & Hin & Hsell & _)] _]; subst.
  rewrite List.Forall_forall in Hbuys. rewrite (Hbuys _ Hin) in Hsell. discriminate.
Qed.

Lemma closed_positions_provenance_witness :
  let transactions :=
    [Examples.acquire Examples.A 10 1 1; Examples.acquire Examples.B 5 2 2] in
  Forall (fun t => t_type t = buy) transactions
  /\ HistoryList.calculateClosedPositions transactions [] = [].
Proof.
  intros transactions.
  assert (Hbuys : Forall (fun t => t_type t = buy) transactions)
    by (repeat constructor).
  split; [exact Hbuys|].
  exact (proj2 (closed_positions_provenance transactions []) Hbuys).
Defined.

(** ** Stock codes that every object inherits *)

(** X24. [calculateClosedPositions] throws a [TypeError] exactly when some
    transaction bears a stock code that is an inherited key and is either a
    purchase, or a sale of a positive quantity where the inherited value has
    a positive [length]; the position of that transaction in the input does
    not matter.  Otherwise it returns, and the transactions whose stock code
    is an inherited key count for nothing: the result is the one of the other
    transactions.  A purchase of [constructor] throws, and so does a sale of
    it; a sale of [toString] or of [__proto__], or a sale of no share of
    [constructor], is ignored. *)
Theorem inherited_code_throws (transactions : list Transaction) (divs : list Dividend) :
  HistoryListFull.calculateClosedPositions transactions divs
  = (if existsb HistoryListFull.throws transactions
     then HistoryListFull.TypeError
     else HistoryListFull.Returns
            (HistoryList.calculateClosedPositions
               (List.filter own_code transactions) divs))
  /\ (let bought := Examples.acquire Examples.A 10 1 1 in
      let sold := Examples.dispose Examples.A 10 2 3 in
      HistoryListFull.calculateClosedPositions
        [bought; sold; Examples.acquire "constructor" 1 1 4] divs
      = HistoryListFull.TypeError
      /\ HistoryListFull.calculateClosedPositions
           [Examples.dispose "constructor" 1 1 0; bought; sold] divs
         = HistoryListFull.TypeError
      /\ HistoryListFull.calculateClosedPositions
           [bought; Examples.dispose "toString" 1 1 2;
            Examples.dispose "__proto__" 1 1 2;
            Examples.dispose "constructor" 0 1 2; sold] divs
         = HistoryListFull.calculateClosedPositions [bought; sold] divs
      /\ HistoryListFull.on_result (map HistoryList.cp_quantity)
           (HistoryListFull.calculateClosedPositions [bought; sold] divs)
         = HistoryListFull.Returns [10]).
Proof.
  split; [apply FullFacts.calculateClosedPositions_spec|].
  repeat split.
Qed.
